(** * TruncatedSVD wrapper (python/cuml/decomposition/tsvd.pyx)

    A shallow embedding of the Cython wrapper class [TruncatedSVD] and of
    its helper class [TSVDparams].  The wrapper is plumbing around four
    native routines ([tsvdFit], [tsvdFitTransform], [tsvdTransform],
    [tsvdInverseTransform]); what it does itself is: dispatch on the type
    of the input, convert Python attributes into the C struct
    [paramsTSVD], allocate device buffers, raise errors, and reshape the
    buffers into data frames.  All of that is modelled here as a state and
    error monad over a [world] made of the estimator object, its
    [TSVDparams] object, the device memory and a log of native calls. *)

From Stdlib Require Import ZArith QArith.
From stdpp Require Import gmap strings list pretty.

Local Open Scope Z_scope.

(** ** Python values *)

(** Element types of a column or array ([np.dtype]). *)
Inductive dtype :=
  | Float32
  | Float64
  | OtherDtype (name : string).

(** The overload selected by [gdf_datatype.type == np.float32]: the
    [float*] routines on float32 data, the [double*] routines on anything
    else. *)
Inductive prec := Single | Double.

Definition prec_of (d : dtype) : prec :=
  match d with
  | Float32 => Single
  | _ => Double
  end.

(** Parameter values: what a caller passes to [__init__] and [set_params]
    and what the attributes of a [TSVDparams] object hold.  The model covers
    the scalar values [None], integers, floats (as rationals) and strings;
    all of them are hashable. *)
Inductive pyval :=
  | PNone
  | PInt (z : Z)
  | PFloat (q : Q)
  | PStr (s : string).

(** Exceptions, by Python class.  [TypeError], [ValueError] are raised by
    the wrapper's own [raise] statements and by the runtime; [KeyError]
    carries the key of the failed dictionary lookup. *)
Inductive exn :=
  | TypeError (msg : string)
  | ValueError (msg : string)
  | KeyError (key : pyval)
  | IndexError (msg : string)
  | OverflowError (msg : string)
  | AttributeError (msg : string).

Inductive result (A : Type) :=
  | Ok (a : A)
  | Raise (e : exn).
Arguments Ok {A} a.
Arguments Raise {A} e.

(** The C struct [paramsTSVD] of the native library (fields written by the
    wrapper; [int] fields as [Z] within the C [int] range, the [float]
    tolerance as a rational, the [solver] enum as its integer). *)
Record paramsTSVD := {
  n_components : Z;
  n_rows : Z;
  n_cols : Z;
  n_iterations : Z;
  tol : Q;
  algorithm : Z;
}.

(** A call of a native routine as the log records it. *)
Record native_call := {
  nc_name : string;
  nc_prec : prec;
  nc_params : paramsTSVD;
}.

(** The zero that [np.zeros] fills a buffer with. *)
Class Elt (T : Type) := elt_zero : T.

(** Objects: the inputs of [fit], [transform] and [inverse_transform] and the
    values held by the attributes of the estimator.  A [DataFrame] is a
    cudf frame of equally typed columns without nulls, in column order; an
    [NdArray] is a numpy array given by its shape and by its elements in
    column-major order (the order [np.array(X, order='F')] lays them out
    in); [DevArray p] is a numba device array and [Series p] a cudf series
    whose data is the device buffer at address [p]; [OtherObj] is any other
    Python object, by its [repr]. *)
Inductive pyobj (T : Type) :=
  | Scalar (v : pyval)
  | Dtype (d : dtype)
  | DataFrame (dt : dtype) (cols : list (string * list T))
  | NdArray (dt : dtype) (shape : list nat) (fdata : list T)
  | DevArray (p : nat)
  | Series (p : nat)
  | OtherObj (repr : string).
Arguments Scalar {T} v.
Arguments Dtype {T} d.
Arguments DataFrame {T} dt cols.
Arguments NdArray {T} dt shape fdata.
Arguments DevArray {T} p.
Arguments Series {T} p.
Arguments OtherObj {T} repr.

(** What [set_params] returns: a reference to the estimator itself or to
    its [TSVDparams] object (both live in the [world]). *)
Inductive ref := RefSelf | RefParams.

(** ** The world *)

(** [self_attrs] are the attributes of the [TruncatedSVD] object,
    [self_params] those of the [TSVDparams] object it holds in
    [self.params]; [device] is the device memory (a buffer per address, in
    allocation order); [calls] logs the native calls, oldest first. *)
Record world (T : Type) := {
  self_attrs : gmap string (pyobj T);
  self_params : gmap string pyval;
  device : list (list T);
  calls : list native_call;
}.
Arguments self_attrs {T} w.
Arguments self_params {T} w.
Arguments device {T} w.
Arguments calls {T} w.

(** The object before [__init__] has run: no attribute yet. *)
Definition blank {T : Type} : world T :=
  {| self_attrs := ∅; self_params := ∅; device := []; calls := [] |}.

(** ** The state and error monad *)

Definition M (T A : Type) : Type := world T → result A * world T.

#[global] Instance M_ret {T : Type} : MRet (M T) :=
  λ A (a : A) w, (Ok a, w).

#[global] Instance M_bind {T : Type} : MBind (M T) :=
  λ A B (k : A → M T B) (m : M T A) w,
    match m w with
    | (Ok a, w') => k a w'
    | (Raise e, w') => (Raise e, w')
    end.

Definition raise {T A : Type} (e : exn) : M T A := λ w, (Raise e, w).

(** Lifting of a computation that needs no state. *)
Definition lift {T A : Type} (r : result A) : M T A := λ w, (r, w).

(** ** Conversions to C types (Cython's typed assignments) *)

Definition INT_MIN : Z := - 2 ^ 31.
Definition INT_MAX : Z := 2 ^ 31 - 1.
Definition UINTPTR_MAX : Z := 2 ^ 64 - 1.

(** Python's [int(x)] of a float: truncation towards zero. *)
Definition trunc (q : Q) : Z := Z.quot (Qnum q) (Z.pos (Qden q)).

Definition in_int_range (z : Z) : result Z :=
  if bool_decide (z < INT_MIN) then
    Raise (OverflowError "value too large to convert to int")
  else if bool_decide (INT_MAX < z) then
    Raise (OverflowError "value too large to convert to int")
  else Ok z.

(** Assignment of a Python object to a C [int] (or to the [solver] enum):
    an integer must fit, a float goes through [__int__], anything else is
    a [TypeError]. *)
Definition to_c_int (v : pyval) : result Z :=
  match v with
  | PInt z => in_int_range z
  | PFloat q => in_int_range (trunc q)
  | PNone | PStr _ => Raise (TypeError "an integer is required")
  end.

(** Assignment to a C [float]. *)
Definition to_c_float (v : pyval) : result Q :=
  match v with
  | PInt z => Ok (inject_Z z)
  | PFloat q => Ok q
  | PNone | PStr _ => Raise (TypeError "a float is required")
  end.

(** Assignment of an attribute to a [uintptr_t]. *)
Definition to_uintptr {T : Type} (o : pyobj T) : result nat :=
  match o with
  | Scalar (PInt z) =>
      if bool_decide (z < 0) then
        Raise (OverflowError "can't convert negative value to uintptr_t")
      else if bool_decide (UINTPTR_MAX < z) then
        Raise (OverflowError "value too large to convert to uintptr_t")
      else Ok (Z.to_nat z)
  | Scalar (PFloat q) =>
      if bool_decide (trunc q < 0) then
        Raise (OverflowError "can't convert negative value to uintptr_t")
      else if bool_decide (UINTPTR_MAX < trunc q) then
        Raise (OverflowError "value too large to convert to uintptr_t")
      else Ok (Z.to_nat (trunc q))
  | _ => Raise (TypeError "an integer is required")
  end.

(** C [int] arithmetic wraps around. *)
Definition wrap_int (z : Z) : Z := (z - INT_MIN) mod 2 ^ 32 + INT_MIN.

Definition c_int_mul (a b : Z) : Z := wrap_int (a * b).

(** ** Primitive operations on the world *)

Section World.
Context {T : Type}.

Definition with_attrs (f : gmap string (pyobj T) → gmap string (pyobj T))
    (w : world T) : world T :=
  {| self_attrs := f (self_attrs w); self_params := self_params w;
     device := device w; calls := calls w |}.

Definition with_params (f : gmap string pyval → gmap string pyval)
    (w : world T) : world T :=
  {| self_attrs := self_attrs w; self_params := f (self_params w);
     device := device w; calls := calls w |}.

Definition with_device (f : list (list T) → list (list T))
    (w : world T) : world T :=
  {| self_attrs := self_attrs w; self_params := self_params w;
     device := f (device w); calls := calls w |}.

Definition with_calls (f : list native_call → list native_call)
    (w : world T) : world T :=
  {| self_attrs := self_attrs w; self_params := self_params w;
     device := device w; calls := f (calls w) |}.

(** [self.k] *)
Definition getattr_self (k : string) : M T (pyobj T) :=
  λ w, match self_attrs w !! k with
       | Some v => (Ok v, w)
       | None => (Raise (AttributeError k), w)
       end.

(** [self.k = v] *)
Definition setattr_self (k : string) (v : pyobj T) : M T unit :=
  λ w, (Ok tt, with_attrs <[k := v]> w).

(** [self.params.k] *)
Definition getattr_params (k : string) : M T pyval :=
  λ w, match self_params w !! k with
       | Some v => (Ok v, w)
       | None => (Raise (AttributeError k), w)
       end.

(** [self.params.k = v], also [setattr(self.params, k, v)] *)
Definition setattr_params (k : string) (v : pyval) : M T unit :=
  λ w, (Ok tt, with_params <[k := v]> w).

(** A new device buffer holding [buf]; its address is the next free one. *)
Definition device_alloc (buf : list T) : M T nat :=
  λ w, (Ok (length (device w)), with_device (λ d, d ++ [buf]) w).

(** The contents of the buffer at [p] (empty when nothing lives there). *)
Definition device_read (p : nat) : M T (list T) :=
  λ w, (Ok (default [] (device w !! p)), w).

(** A routine writing [new] through a pointer to a buffer overwrites the
    buffer from its start; the buffer keeps its allocated size. *)
Definition write_buf (old new : list T) : list T :=
  take (length old) (new ++ drop (length new) old).

(** The write of [new] through the address [p].  (A write through an
    address where no buffer lives would be undefined behaviour of the
    native code; the memory is left as it is then.) *)
Definition device_write (p : nat) (new : list T) : M T unit :=
  λ w, (Ok tt, with_device (λ d, alter (λ old, write_buf old new) p d) w).

(** The record of a native call, at the end of the log. *)
Definition log_call (c : native_call) : M T unit :=
  λ w, (Ok tt, with_calls (λ l, l ++ [c]) w).
End World.

(** ** numpy, numba and cudf, as far as the wrapper uses them *)

Section Libraries.
Context {T : Type} `{!Elt T}.

(** Python's [a * b] on the numbers that reach it.  (A string or [None]
    never does: the conversion of the same attribute to a C [int] has
    failed before.) *)
Definition py_mul (a b : pyval) : result pyval :=
  match a, b with
  | PInt x, PInt y => Ok (PInt (x * y))
  | PInt x, PFloat q => Ok (PFloat (inject_Z x * q))
  | PFloat q, PInt y => Ok (PFloat (q * inject_Z y))
  | PFloat p, PFloat q => Ok (PFloat (p * q))
  | _, _ => Raise (TypeError "unsupported operand type(s) for *")
  end.

(** Python's [a > b] on numbers. *)
Definition py_gt (a b : pyval) : result bool :=
  match a, b with
  | PInt x, PInt y => Ok (bool_decide (y < x))
  | PInt x, PFloat q => Ok (negb (Qle_bool (inject_Z x) q))
  | PFloat q, PInt y => Ok (negb (Qle_bool q (inject_Z y)))
  | PFloat p, PFloat q => Ok (negb (Qle_bool p q))
  | _, _ => Raise (TypeError "'>' not supported between instances")
  end.

(** [np.zeros(n, dtype=...)]: a negative size is a [ValueError], a size
    that is not an integer a [TypeError]. *)
Definition np_zeros (n : pyval) : result (list T) :=
  match n with
  | PInt z =>
      if bool_decide (z < 0) then
        Raise (ValueError "negative dimensions are not allowed")
      else Ok (replicate (Z.to_nat z) elt_zero)
  | _ => Raise (TypeError "object cannot be interpreted as an integer")
  end.

(** [cuda.to_device(arr)]: a copy of the host array on the device. *)
Definition to_device (buf : list T) : M T (pyobj T) :=
  p ← device_alloc buf; mret (DevArray p).

(** [cudf.Series(arr)]: a series whose column is a device buffer. *)
Definition new_series (buf : list T) : M T (pyobj T) :=
  p ← device_alloc buf; mret (Series p).

(** [len(X)] of a frame: its number of rows. *)
Definition df_len (cols : list (string * list T)) : nat :=
  match cols with
  | [] => 0%nat
  | c :: _ => length c.2
  end.

(** [X[X.columns[0]]._column.dtype] *)
Definition first_column_dtype (dt : dtype) (cols : list (string * list T))
    : result dtype :=
  match cols with
  | [] => Raise (IndexError "index 0 is out of bounds for axis 0 with size 0")
  | _ :: _ => Ok dt
  end.

(** [X.as_gpu_matrix()]: cudf refuses a frame without columns or without
    rows, and otherwise copies the columns, one after the other
    (column-major), into a new device matrix. *)
Definition as_gpu_matrix (cols : list (string * list T)) : M T (pyobj T) :=
  if bool_decide (length cols < 1)%nat then
    raise (ValueError "require at least 1 column")
  else if bool_decide (df_len cols < 1)%nat then
    raise (ValueError "require at least 1 row")
  else to_device (concat (cols.*2)).

(** [X.shape[i]] *)
Definition shape_at (shape : list nat) (i : nat) : result pyval :=
  match shape !! i with
  | Some n => Ok (PInt (Z.of_nat n))
  | None => Raise (IndexError "tuple index out of range")
  end.

(** [len(X)] on the inputs the methods accept. *)
Definition py_len (X : pyobj T) : result pyval :=
  match X with
  | DataFrame _ cols => Ok (PInt (Z.of_nat (df_len cols)))
  | NdArray _ shape _ =>
      match shape with
      | [] => Raise (TypeError "len() of unsized object")
      | n :: _ => Ok (PInt (Z.of_nat n))
      end
  | _ => Raise (TypeError "object has no len()")
  end.

(** [buf[a:b]] for [0 <= a <= b] (the only slices the wrapper takes). *)
Definition py_slice (buf : list T) (a b : Z) : list T :=
  take (Z.to_nat (b - a)) (drop (Z.to_nat a) buf).

(** The loop
    [for i in range(0, n): df[str(i)] = buf[i*k:(i+1)*k]]
    on an empty frame [df]. *)
Definition frame_of_slices (buf : list T) (n k : Z) : list (string * list T) :=
  (λ i, (pretty i, py_slice buf (i * k) ((i + 1) * k))) <$> seqZ 0 n.
End Libraries.

(** ** The native library *)

(** What [tsvdFitTransform] writes through its five output pointers. *)
Record fit_transform_out (T : Type) := {
  ft_trans_input : list T;
  ft_components : list T;
  ft_explained_var : list T;
  ft_explained_var_ratio : list T;
  ft_singular_vals : list T;
}.
Arguments ft_trans_input {T} f.
Arguments ft_components {T} f.
Arguments ft_explained_var {T} f.
Arguments ft_explained_var_ratio {T} f.
Arguments ft_singular_vals {T} f.

(** The routines declared [cdef extern from "tsvd/tsvd_c.h"]: the wrapper
    only has their signatures, so the library is a parameter of the model.
    Each routine is given by what it writes through its output pointers as
    a function of the buffers behind its input pointers and of the struct
    (the overload, [float*] or [double*], is the first argument).  Which
    pointers are inputs and which outputs is read off the parameter names
    of the declarations and the contracts of the design document: [input]
    is read by the fits and by the transform and written by the inverse
    transform, [components] is written by the fits and read by the two
    transforms, [trans_input] is written by the transform and read by its
    inverse; a routine writes through its output pointers only.
    [params_default] is the struct as its default constructor leaves it:
    [transform] and [inverse_transform] assign three fields only. *)
Record NativeLib (T : Type) := {
  params_default : paramsTSVD;
  tsvdFit : prec → list T → paramsTSVD → list T * list T;
  tsvdFitTransform : prec → list T → paramsTSVD → fit_transform_out T;
  tsvdInverseTransform : prec → list T → list T → paramsTSVD → list T;
  tsvdTransform : prec → list T → list T → paramsTSVD → list T;
}.
Arguments params_default {T} n.
Arguments tsvdFit {T} n.
Arguments tsvdFitTransform {T} n.
Arguments tsvdInverseTransform {T} n.
Arguments tsvdTransform {T} n.

(** The enum [solver] comes from [cuml/decomposition/utils.pxd]; its two
    constants are used as opaque integers. *)
Definition COV_EIG_DQ : Z := 0.
Definition COV_EIG_JACOBI : Z := 1.

(** ** class TSVDparams and class TruncatedSVD *)

Section TruncatedSVD.
Context {T : Type} `{!Elt T}.

(** [repr(v)], for the message of [__init__] (a float is shown as the
    fraction the model holds). *)
Definition py_repr (v : pyval) : string :=
  match v with
  | PNone => "None"
  | PInt z => pretty z
  | PFloat q => pretty (Qnum q) +:+ "/" +:+ pretty (Z.pos (Qden q))
  | PStr s => "'" +:+ s +:+ "'"
  end.

(** [TSVDparams.__init__]: [self.params] becomes a new object with these
    seven attributes. *)
Definition TSVDparams__init__
    (n_components tol iterated_power random_state svd_solver : pyval)
    : M T unit :=
  λ w, (Ok tt,
        with_params (λ _,
          <["n_rows" := PNone]> (
          <["n_cols" := PNone]> (
          <["random_state" := random_state]> (
          <["iterated_power" := iterated_power]> (
          <["tol" := tol]> (
          <["svd_solver" := svd_solver]> (
          <["n_components" := n_components]> ∅))))))) w).

(** The dictionary lookup [{'full': COV_EIG_DQ, 'auto': COV_EIG_DQ,
    'jacobi': COV_EIG_JACOBI}[algorithm]]. *)
Definition _get_algorithm_c_name (algorithm : pyval) : result pyval :=
  match algorithm with
  | PStr s =>
      if bool_decide (s = "full") then Ok (PInt COV_EIG_DQ)
      else if bool_decide (s = "auto") then Ok (PInt COV_EIG_DQ)
      else if bool_decide (s = "jacobi") then Ok (PInt COV_EIG_JACOBI)
      else Raise (KeyError algorithm)
  | _ => Raise (KeyError algorithm)
  end.

(** [algorithm in ['full', 'auto', 'jacobi']] *)
Definition supported_algorithm (algorithm : pyval) : bool :=
  match algorithm with
  | PStr s => bool_decide (s ∈ ["full"; "auto"; "jacobi"])
  | _ => false
  end.

Definition __init__ (n_components tol n_iter random_state algorithm : pyval)
    : M T unit :=
  setattr_self "n_components" (Scalar n_components);;
  setattr_self "tol" (Scalar tol);;
  setattr_self "n_iter" (Scalar n_iter);;
  setattr_self "random_state" (Scalar random_state);;
  setattr_self "algorithm" (Scalar algorithm);;
  c_algorithm ←
    (if supported_algorithm algorithm then
       setattr_self "algorithm" (Scalar algorithm);;
       lift (_get_algorithm_c_name algorithm)
     else
       raise (TypeError
                ("algorithm " +:+ py_repr algorithm +:+ " is not supported")));
  TSVDparams__init__ n_components tol n_iter random_state c_algorithm;;
  setattr_self "components_" (Scalar PNone);;
  setattr_self "explained_variance_" (Scalar PNone);;
  setattr_self "explained_variance_ratio_" (Scalar PNone);;
  setattr_self "singular_values_" (Scalar PNone);;
  setattr_self "components_ptr" (Scalar PNone);;
  setattr_self "explained_variance_ptr" (Scalar PNone);;
  setattr_self "explained_variance_ratio_ptr" (Scalar PNone);;
  setattr_self "singular_values_ptr" (Scalar PNone).

(** [np.zeros(a*b, dtype=self.gdf_datatype)] with Python's product. *)
Definition zeros_of_product (a b : pyval) : M T (list T) :=
  n ← lift (py_mul a b);
  _ ← getattr_self "gdf_datatype";
  lift (np_zeros n).

Definition _initialize_arrays (n_components n_rows n_cols : pyval)
    : M T unit :=
  z ← zeros_of_product n_rows n_components;
  a ← to_device z;
  setattr_self "trans_input_" a;;
  z ← zeros_of_product n_components n_cols;
  a ← to_device z;
  setattr_self "components_" a;;
  _ ← getattr_self "gdf_datatype";
  z ← lift (np_zeros n_components);
  s ← new_series z;
  setattr_self "explained_variance_" s;;
  _ ← getattr_self "gdf_datatype";
  z ← lift (np_zeros n_components);
  s ← new_series z;
  setattr_self "explained_variance_ratio_" s;;
  _ ← getattr_self "gdf_datatype";
  z ← lift (np_zeros n_cols);
  s ← new_series z;
  setattr_self "mean_" s;;
  _ ← getattr_self "gdf_datatype";
  z ← lift (np_zeros n_components);
  s ← new_series z;
  setattr_self "singular_values_" s;;
  _ ← getattr_self "gdf_datatype";
  z ← lift (np_zeros (PInt 1));
  s ← new_series z;
  setattr_self "noise_variance_" s.

(** [obj.device_ctypes_pointer.value] *)
Definition _get_ctype_ptr (obj : pyobj T) : M T nat :=
  match obj with
  | DevArray p => mret p
  | _ => raise (AttributeError "device_ctypes_pointer")
  end.

(** [self._get_ctype_ptr(obj._column._data.to_gpu_array())]: the device
    array a series hands out is a view of its column. *)
Definition _get_column_ptr (obj : pyobj T) : M T nat :=
  match obj with
  | Series p => _get_ctype_ptr (DevArray p)
  | _ => raise (AttributeError "_column")
  end.

(** [self.gdf_datatype.type == np.float32] selects the overload. *)
Definition dtype_of (o : pyobj T) : M T dtype :=
  match o with
  | Dtype d => mret d
  | _ => raise (AttributeError "type")
  end.

(** The pointer kept in an attribute, as the Python integer it is. *)
Definition ptr_obj (p : nat) : pyobj T := Scalar (PInt (Z.of_nat p)).

Section Native.
Variable lib : NativeLib T.

(** The four calls through the foreign-function boundary: the buffers
    behind the input pointers are read, the call is logged, and the
    results are written through the output pointers. *)
Definition call_tsvdFit (pr : prec)
    (input_ptr components_ptr singular_vals_ptr : nat)
    (params : paramsTSVD) : M T unit :=
  input ← device_read input_ptr;
  log_call {| nc_name := "tsvdFit"; nc_prec := pr; nc_params := params |};;
  let out := tsvdFit lib pr input params in
  device_write components_ptr out.1;;
  device_write singular_vals_ptr out.2.

Definition call_tsvdFitTransform (pr : prec)
    (input_ptr trans_input_ptr components_ptr explained_var_ptr
       explained_var_ratio_ptr singular_vals_ptr : nat)
    (params : paramsTSVD) : M T unit :=
  input ← device_read input_ptr;
  log_call {| nc_name := "tsvdFitTransform"; nc_prec := pr;
              nc_params := params |};;
  let out := tsvdFitTransform lib pr input params in
  device_write trans_input_ptr (ft_trans_input out);;
  device_write components_ptr (ft_components out);;
  device_write explained_var_ptr (ft_explained_var out);;
  device_write explained_var_ratio_ptr (ft_explained_var_ratio out);;
  device_write singular_vals_ptr (ft_singular_vals out).

Definition call_tsvdInverseTransform (pr : prec)
    (trans_input_ptr components_ptr input_ptr : nat)
    (params : paramsTSVD) : M T unit :=
  trans_input ← device_read trans_input_ptr;
  components ← device_read components_ptr;
  log_call {| nc_name := "tsvdInverseTransform"; nc_prec := pr;
              nc_params := params |};;
  device_write input_ptr
    (tsvdInverseTransform lib pr trans_input components params).

Definition call_tsvdTransform (pr : prec)
    (input_ptr components_ptr trans_input_ptr : nat)
    (params : paramsTSVD) : M T unit :=
  input ← device_read input_ptr;
  components ← device_read components_ptr;
  log_call {| nc_name := "tsvdTransform"; nc_prec := pr;
              nc_params := params |};;
  device_write trans_input_ptr
    (tsvdTransform lib pr input components params).

(** [fit] ends with [del(X_m)] and [return self]: dropping the reference
    frees nothing the model keeps track of, and the estimator returned is
    the one in the world. *)
Definition fit (X : pyobj T) (_transform : bool) : M T unit :=
  X_m ←
    match X with
    | DataFrame dt cols =>
        d ← lift (first_column_dtype dt cols);
        setattr_self "gdf_datatype" (Dtype d);;
        X_m ← as_gpu_matrix cols;
        setattr_params "n_rows" (PInt (Z.of_nat (df_len cols)));;
        setattr_params "n_cols" (PInt (Z.of_nat (length cols)));;
        mret X_m
    | NdArray dt shape fdata =>
        setattr_self "gdf_datatype" (Dtype dt);;
        X_m ← to_device fdata;
        r ← lift (shape_at shape 0);
        setattr_params "n_rows" r;;
        c ← lift (shape_at shape 1);
        setattr_params "n_cols" c;;
        mret X_m
    | _ => raise (TypeError "X matrix format  not supported")
    end;
  input_ptr ← _get_ctype_ptr X_m;
  v ← getattr_params "n_components"; p_n_components ← lift (to_c_int v);
  v ← getattr_params "n_rows"; p_n_rows ← lift (to_c_int v);
  v ← getattr_params "n_cols"; p_n_cols ← lift (to_c_int v);
  v ← getattr_params "iterated_power"; p_n_iterations ← lift (to_c_int v);
  v ← getattr_params "tol"; p_tol ← lift (to_c_float v);
  v ← getattr_params "svd_solver"; p_algorithm ← lift (to_c_int v);
  let params :=
    {| n_components := p_n_components; n_rows := p_n_rows;
       n_cols := p_n_cols; n_iterations := p_n_iterations; tol := p_tol;
       algorithm := p_algorithm |} in
  a ← getattr_params "n_components";
  b ← getattr_params "n_rows";
  c ← getattr_params "n_cols";
  _initialize_arrays a b c;;
  o ← getattr_self "components_"; components_ptr ← _get_ctype_ptr o;
  o ← getattr_self "explained_variance_";
  explained_var_ptr ← _get_column_ptr o;
  o ← getattr_self "explained_variance_ratio_";
  explained_var_ratio_ptr ← _get_column_ptr o;
  o ← getattr_self "singular_values_";
  singular_vals_ptr ← _get_column_ptr o;
  o ← getattr_self "trans_input_"; trans_input_ptr ← _get_ctype_ptr o;
  a ← getattr_params "n_components";
  c ← getattr_params "n_cols";
  too_many ← lift (py_gt a c);
  (if too_many : bool then
     raise (ValueError " n_components must be < n_features")
   else mret tt);;
  o ← getattr_self "gdf_datatype"; d ← dtype_of o;
  (if negb _transform then
     call_tsvdFit (prec_of d) input_ptr components_ptr singular_vals_ptr
       params
   else
     call_tsvdFitTransform (prec_of d) input_ptr trans_input_ptr
       components_ptr explained_var_ptr explained_var_ratio_ptr
       singular_vals_ptr params);;
  o ← getattr_self "components_"; p ← _get_ctype_ptr o;
  buf ← device_read p;
  let components_gdf :=
    DataFrame d (frame_of_slices buf (n_cols params) (n_components params))
  in
  setattr_self "components_" components_gdf;;
  setattr_self "components_ptr" (ptr_obj components_ptr);;
  setattr_self "explained_variance_ptr" (ptr_obj explained_var_ptr);;
  setattr_self "explained_variance_ratio_ptr"
    (ptr_obj explained_var_ratio_ptr);;
  setattr_self "singular_values_ptr" (ptr_obj singular_vals_ptr).

(** An attribute used as an integer by [range] and by slice bounds. *)
Definition as_index (v : pyval) : result Z :=
  match v with
  | PInt z => Ok z
  | _ => Raise (TypeError "object cannot be interpreted as an integer")
  end.

Definition fit_transform (X : pyobj T) : M T (pyobj T) :=
  fit X true;;
  v ← getattr_params "n_rows"; num_rows ← lift (as_index v);
  v ← getattr_params "n_components"; k ← lift (as_index v);
  o ← getattr_self "trans_input_"; p ← _get_ctype_ptr o;
  buf ← device_read p;
  o ← getattr_self "gdf_datatype"; d ← dtype_of o;
  mret (DataFrame d (frame_of_slices buf k num_rows)).

Definition inverse_transform (X : pyobj T) : M T (pyobj T) :=
  '(gdf_datatype, X_m) ←
    match X with
    | DataFrame dt cols =>
        d ← lift (first_column_dtype dt cols);
        X_m ← as_gpu_matrix cols;
        mret (d, X_m)
    | NdArray dt shape fdata =>
        X_m ← to_device fdata;
        mret (dt, X_m)
    | _ => raise (TypeError "X matrix format  not supported")
    end;
  trans_input_ptr ← _get_ctype_ptr X_m;
  v ← getattr_params "n_components"; p_n_components ← lift (to_c_int v);
  v ← lift (py_len X); p_n_rows ← lift (to_c_int v);
  v ← getattr_params "n_cols"; p_n_cols ← lift (to_c_int v);
  let params :=
    {| n_components := p_n_components; n_rows := p_n_rows;
       n_cols := p_n_cols;
       n_iterations := n_iterations (params_default lib);
       tol := tol (params_default lib);
       algorithm := algorithm (params_default lib) |} in
  z ← lift (np_zeros (PInt (c_int_mul (n_rows params) (n_cols params))));
  input_data ← to_device z;
  input_ptr ← _get_ctype_ptr input_data;
  o ← getattr_self "components_ptr"; components_ptr ← lift (to_uintptr o);
  call_tsvdInverseTransform (prec_of gdf_datatype) trans_input_ptr
    components_ptr input_ptr params;;
  buf ← device_read input_ptr;
  mret (DataFrame gdf_datatype
          (frame_of_slices buf (n_cols params) (n_rows params))).

Definition transform (X : pyobj T) : M T (pyobj T) :=
  '(gdf_datatype, X_m) ←
    match X with
    | DataFrame dt cols =>
        d ← lift (first_column_dtype dt cols);
        X_m ← as_gpu_matrix cols;
        mret (d, X_m)
    | NdArray dt shape fdata =>
        X_m ← to_device fdata;
        _ ← lift (shape_at shape 0);
        _ ← lift (shape_at shape 1);
        mret (dt, X_m)
    | _ => raise (TypeError "X matrix format  not supported")
    end;
  input_ptr ← _get_ctype_ptr X_m;
  v ← getattr_params "n_components"; p_n_components ← lift (to_c_int v);
  v ← lift (py_len X); p_n_rows ← lift (to_c_int v);
  v ← getattr_params "n_cols"; p_n_cols ← lift (to_c_int v);
  let params :=
    {| n_components := p_n_components; n_rows := p_n_rows;
       n_cols := p_n_cols;
       n_iterations := n_iterations (params_default lib);
       tol := tol (params_default lib);
       algorithm := algorithm (params_default lib) |} in
  z ← lift (np_zeros
              (PInt (c_int_mul (n_rows params) (n_components params))));
  trans_input_data ← to_device z;
  trans_input_ptr ← _get_ctype_ptr trans_input_data;
  o ← getattr_self "components_ptr"; components_ptr ← lift (to_uintptr o);
  call_tsvdTransform (prec_of gdf_datatype) input_ptr components_ptr
    trans_input_ptr params;;
  buf ← device_read trans_input_ptr;
  mret (DataFrame gdf_datatype
          (frame_of_slices buf (n_components params) (n_rows params))).
End Native.

(** The list [variables] of [get_params]. *)
Definition get_variables : list string :=
  ["n_components"; "algorithm"; "svd_solver"; "tol"; "n_iter";
   "random_state"; "iterated_power"; "random_state"; "n_cols"; "n_rows"].

(** One round of the loop of [get_params]: [getattr(obj, key, None)] never
    fails. *)
Definition get_params_step (w : world T) (params : gmap string (pyobj T))
    (key : string) : gmap string (pyobj T) :=
  let var_value := Scalar (default PNone (self_params w !! key)) in
  let params := <[key := var_value]> params in
  if bool_decide ("algorithm" = key) then
    <[key := default (Scalar PNone) (self_attrs w !! key)]> params
  else params.

Definition get_params : M T (gmap string (pyobj T)) :=
  λ w, (Ok (foldl (get_params_step w) ∅ get_variables), w).

(** The list [variables] of [set_params]. *)
Definition set_variables : list string :=
  ["n_components"; "algorithm"; "tol"; "svd_solver"; "n_iter";
   "random_state"; "c_algorithm"; "iterated_power"; "random_state"].

(** The loop [for key, value in params.items()] of [set_params]; [keys]
    are the keys of the whole dictionary [params]. *)
Fixpoint set_params_loop (keys : list string) (items : list (string * pyval))
    : M T unit :=
  match items with
  | [] => mret tt
  | (key, value) :: rest =>
      (if negb (bool_decide (key ∈ set_variables)) then
         raise (ValueError "Invalid parameter %s for estimator")
       else if bool_decide ("algorithm" ∈ keys) && bool_decide (key = "algorithm")
       then
         setattr_self key (Scalar value);;
         c ← lift (_get_algorithm_c_name value);
         setattr_params "svd_solver" c
       else setattr_params key value);;
      set_params_loop keys rest
  end.

(** [set_params]: the keyword arguments arrive as the dictionary [params],
    given here by its items in order (the keys of a dictionary are
    distinct). *)
Definition set_params (params : list (string * pyval)) : M T ref :=
  match params with
  | [] => mret RefSelf
  | _ :: _ => set_params_loop (params.*1) params;; mret RefParams
  end.
End TruncatedSVD.

(** ** Vocabulary of the statements *)

(** The error kinds of the design document. *)
Inductive error_kind :=
  | InvalidParameter
  | ShapeMismatch
  | UnsupportedInputType
  | NumericalFailure
  | UnfittedModelError.

Definition is_prefix_of (p s : string) : bool :=
  bool_decide (String.substring 0 (String.length p) s = p).

(** The error kind each [raise] statement of the wrapper signals.  The
    wrapper has four of them: the unsupported input of [fit], [transform]
    and [inverse_transform]; the unsupported algorithm of [__init__]; the
    check of [n_components] in [fit]; the unknown key of [set_params].  An
    exception that comes out of the runtime instead (a failed conversion, a
    failed lookup, numpy or cudf refusing an argument) signals none. *)
Definition spec_kind (e : exn) : option error_kind :=
  match e with
  | TypeError msg =>
      if bool_decide (msg = "X matrix format  not supported") then
        Some UnsupportedInputType
      else if is_prefix_of "algorithm " msg then Some InvalidParameter
      else None
  | ValueError msg =>
      if bool_decide (msg = " n_components must be < n_features") then
        Some InvalidParameter
      else if bool_decide (msg = "Invalid parameter %s for estimator") then
        Some InvalidParameter
      else None
  | _ => None
  end.

(** [isinstance(X, cudf.DataFrame)] or [isinstance(X, np.ndarray)]. *)
Definition is_frame_or_array {T : Type} (X : pyobj T) : bool :=
  match X with
  | DataFrame _ _ | NdArray _ _ _ => true
  | _ => false
  end.

(** The rows and columns of an input that passes the first lines of [fit]
    and [transform]: a frame with at least one column and one row, or an
    array of at least two dimensions. *)
Definition input_shape {T : Type} (X : pyobj T) : option (nat * nat) :=
  match X with
  | DataFrame _ cols =>
      match cols with
      | [] => None
      | c :: _ => if bool_decide (length c.2 < 1)%nat then None
                  else Some (length c.2, length cols)
      end
  | NdArray _ (r :: c :: _) _ => Some (r, c)
  | _ => None
  end.

(** The buffer the input is copied to the device as. *)
Definition input_buffer {T : Type} (X : pyobj T) : list T :=
  match X with
  | DataFrame _ cols => concat (cols.*2)
  | NdArray _ _ fdata => fdata
  | _ => []
  end.

Definition input_dtype {T : Type} (X : pyobj T) : dtype :=
  match X with
  | DataFrame dt _ | NdArray dt _ _ => dt
  | _ => Float64
  end.

(** A fitted model: [components_ptr] holds the address of a live device
    buffer (what a successful [fit] leaves behind). *)
Definition fitted {T : Type} (w : world T) : Prop :=
  ∃ p : nat, self_attrs w !! "components_ptr" = Some (Scalar (PInt (Z.of_nat p)))
             ∧ (p < length (device w))%nat
             ∧ Z.of_nat p ≤ UINTPTR_MAX.

(** ** Instances to run the model on *)

#[global] Instance Z_elt : Elt Z := 0.

(** A native library whose routines write nothing: every output buffer
    stays as the wrapper allocated it. *)
Definition idle_lib : NativeLib Z :=
  {| params_default :=
       {| n_components := 0; n_rows := 0; n_cols := 0; n_iterations := 0;
          tol := 0%Q; algorithm := 0 |};
     tsvdFit := λ _ _ _, ([], []);
     tsvdFitTransform := λ _ _ _,
       {| ft_trans_input := []; ft_components := []; ft_explained_var := [];
          ft_explained_var_ratio := []; ft_singular_vals := [] |};
     tsvdInverseTransform := λ _ _ _ _, [];
     tsvdTransform := λ _ _ _ _, [] |}.

(** [TruncatedSVD(n_components=k)], every other argument at its default. *)
Definition new_estimator {T : Type} (k : Z) : world T :=
  (__init__ (PInt k) (PFloat (1 # 10000000)) (PInt 15) PNone (PStr "full")
     blank).2.

(** The 3x3 matrix of the class docstring and a 3x4 matrix, as float32
    arrays (elements rounded to integers, in column-major order). *)
Definition X_3x3 : pyobj Z :=
  NdArray Float32 [3; 3]%nat [1; 2; 5; 4; 2; 1; 4; 2; 1].
Definition X_3x4 : pyobj Z :=
  NdArray Float32 [3; 4]%nat [1; 2; 5; 4; 2; 1; 4; 2; 1; 7; 8; 9].


(** The attributes [fit] copies into [paramsTSVD] besides the shape and
    [n_components] convert to their C types. *)
Definition params_convert {T : Type} (w : world T) : Prop :=
  ∃ vi vt vs i t s,
    self_params w !! "iterated_power" = Some vi ∧ to_c_int vi = Ok i
    ∧ self_params w !! "tol" = Some vt ∧ to_c_float vt = Ok t
    ∧ self_params w !! "svd_solver" = Some vs ∧ to_c_int vs = Ok s.

(** What one accepted item of [set_params] does to the world: the key
    [algorithm] sets the attribute of the estimator and [svd_solver] of the
    params object, any other key the attribute of that name of the params
    object. *)
Definition apply_update {T : Type} (w : world T) (item : string * pyval)
    : world T :=
  if bool_decide (item.1 = "algorithm") then
    with_params
      <["svd_solver" := match _get_algorithm_c_name item.2 with
                        | Ok c => c
                        | Raise _ => PNone
                        end]>
      (with_attrs <["algorithm" := Scalar item.2]> w)
  else with_params <[item.1 := item.2]> w.

(** An item [set_params] accepts: a key of its list, and for the key
    [algorithm] one of the three supported names. *)
Definition accepted (item : string * pyval) : Prop :=
  item.1 ∈ set_variables
  ∧ (item.1 = "algorithm" → supported_algorithm item.2 = true).

(** The keys of the dictionary [get_params] returns. *)
Definition get_keys : gset string :=
  {["n_components"; "algorithm"; "svd_solver"; "tol"; "n_iter";
    "random_state"; "iterated_power"; "n_cols"; "n_rows"]}.

(** The keys the design document lists for [get_params]. *)
Definition documented_keys : gset string :=
  {["n_components"; "algorithm"; "tol"; "n_iterations"; "n_rows"; "n_cols"]}.

(** The estimator and every device buffer that existed in [w] are the same
    in [w']: attributes, parameters, and the old part of the device memory
    (components, singular values and variances of a fitted model live
    there). *)
Definition model_unchanged {T : Type} (w w' : world T) : Prop :=
  self_attrs w' = self_attrs w
  ∧ self_params w' = self_params w
  ∧ ∃ new, device w' = device w ++ new.

(** The estimator after [TruncatedSVD(n_components=2).fit(X_3x3)]. *)
Definition fitted_3x3 : world Z :=
  (fit idle_lib X_3x3 true (new_estimator 2)).2.

(** ** Vocabulary of the further statements *)

(** The params object holds the integer [k] as [n_components], attributes
    [iterated_power] and [svd_solver] that convert to the C values [i] and
    [s], and a [tol] that converts to a C float. *)
Definition holds_params {T : Type} (w : world T) (k i s : Z) : Prop :=
  self_params w !! "n_components" = Some (PInt k)
  ∧ ∃ vi vt vs t,
      self_params w !! "iterated_power" = Some vi ∧ to_c_int vi = Ok i
      ∧ self_params w !! "tol" = Some vt ∧ to_c_float vt = Ok t
      ∧ self_params w !! "svd_solver" = Some vs ∧ to_c_int vs = Ok s.


(** A frame cut out of [buf]: [n] columns named by their index, of [k]
    elements each, which laid end to end are [buf]. *)
Definition frame_of {T : Type} (cols : list (string * list T)) (buf : list T)
    (n k : Z) : Prop :=
  cols.*1 = pretty <$> seqZ 0 n
  ∧ Forall (λ col, length col = Z.to_nat k) cols.*2
  ∧ concat cols.*2 = buf.

(** The four attributes that keep device addresses between calls. *)
Definition pointer_attrs : list string :=
  ["components_ptr"; "explained_variance_ptr"; "explained_variance_ratio_ptr";
   "singular_values_ptr"].

(** What the native routine of a fit wrote through the components
    pointer. *)
Definition fit_components {T : Type} (lib : NativeLib T) (_transform : bool)
    (c : native_call) (input : list T) : list T :=
  if _transform
  then ft_components (tsvdFitTransform lib (nc_prec c) input (nc_params c))
  else (tsvdFit lib (nc_prec c) input (nc_params c)).1.

(** ** Running the monadic code symbolically

    The methods are long chains of binds.  The lemmas of this section say
    what one step does to a world given by its four parts; the tactics
    after them run a method step by step, on symbolic inputs, as far as the
    hypotheses decide its branches. *)

Section Run.
Context {T : Type} `{!Elt T}.
Implicit Types (w : world T).

(** Conversions that succeed. *)
Lemma in_int_range_ok z : INT_MIN ≤ z ≤ INT_MAX → in_int_range z = Ok z.
Proof.
  intros [? ?]. unfold in_int_range.
  rewrite !bool_decide_eq_false_2 by lia. reflexivity.
Qed.

Lemma to_c_int_int z : INT_MIN ≤ z ≤ INT_MAX → to_c_int (PInt z) = Ok z.
Proof. apply in_int_range_ok. Qed.

Lemma to_uintptr_ptr (q : nat) :
  Z.of_nat q ≤ UINTPTR_MAX →
  to_uintptr (T:=T) (Scalar (PInt (Z.of_nat q))) = Ok q.
Proof.
  intros ?. unfold to_uintptr.
  rewrite !bool_decide_eq_false_2 by lia. by rewrite Nat2Z.id.
Qed.

Lemma np_zeros_nonneg z :
  0 ≤ z → np_zeros (PInt z) = Ok (replicate (Z.to_nat z) (elt_zero : T)).
Proof.
  intros ?. unfold np_zeros. by rewrite bool_decide_eq_false_2 by lia.
Qed.

Lemma np_zeros_negative z :
  z < 0 → np_zeros (T:=T) (PInt z)
          = Raise (ValueError "negative dimensions are not allowed").
Proof.
  intros ?. unfold np_zeros. by rewrite bool_decide_eq_true_2 by lia.
Qed.

Lemma wrap_int_id z : INT_MIN ≤ z ≤ INT_MAX → wrap_int z = z.
Proof.
  intros Hz. unfold wrap_int, INT_MIN, INT_MAX in *.
  rewrite Z.mod_small by lia. lia.
Qed.

(** The laws the steps below rest on. *)
Lemma run_assoc {A B C} (m : M T A) (f : A → M T B) (g : B → M T C) w :
  ((m ≫= f) ≫= g) w = (m ≫= λ a, f a ≫= g) w.
Proof. unfold mbind, M_bind. destruct (m w) as [[a|e] w']; reflexivity. Qed.

Lemma run_last {A} (m : M T A) w : m w = (m ≫= mret) w.
Proof. unfold mbind, M_bind. destruct (m w) as [[a|e] w']; reflexivity. Qed.

Lemma run_lift_eq {A B} (r r' : result A) (f : A → M T B) w :
  r = r' → (lift r ≫= f) w = (lift r' ≫= f) w.
Proof. by intros ->. Qed.

Lemma run_if_true {A B} (b : bool) (m1 m2 : M T A) (f : A → M T B) w :
  b = true → ((if b then m1 else m2) ≫= f) w = (m1 ≫= f) w.
Proof. by intros ->. Qed.

Lemma run_if_false {A B} (b : bool) (m1 m2 : M T A) (f : A → M T B) w :
  b = false → ((if b then m1 else m2) ≫= f) w = (m2 ≫= f) w.
Proof. by intros ->. Qed.

Lemma run_getattr_self {B} k v (f : pyobj T → M T B) a p d c :
  a !! k = Some v →
  (getattr_self k ≫= f)
    {| self_attrs := a; self_params := p; device := d; calls := c |}
  = f v {| self_attrs := a; self_params := p; device := d; calls := c |}.
Proof. intros H. unfold mbind, M_bind, getattr_self. cbn. by rewrite H. Qed.

Lemma run_getattr_params {B} k v (f : pyval → M T B) a p d c :
  p !! k = Some v →
  (getattr_params k ≫= f)
    {| self_attrs := a; self_params := p; device := d; calls := c |}
  = f v {| self_attrs := a; self_params := p; device := d; calls := c |}.
Proof. intros H. unfold mbind, M_bind, getattr_params. cbn. by rewrite H. Qed.

Lemma run_getattr_self_none {B} k (f : pyobj T → M T B) a p d c :
  a !! k = None →
  (getattr_self k ≫= f)
    {| self_attrs := a; self_params := p; device := d; calls := c |}
  = (Raise (AttributeError k),
     {| self_attrs := a; self_params := p; device := d; calls := c |}).
Proof. intros H. unfold mbind, M_bind, getattr_self. cbn. by rewrite H. Qed.

Lemma run_getattr_params_none {B} k (f : pyval → M T B) a p d c :
  p !! k = None →
  (getattr_params k ≫= f)
    {| self_attrs := a; self_params := p; device := d; calls := c |}
  = (Raise (AttributeError k),
     {| self_attrs := a; self_params := p; device := d; calls := c |}).
Proof. intros H. unfold mbind, M_bind, getattr_params. cbn. by rewrite H. Qed.

(** Allocation in a device memory written as an old part [l] followed by
    the buffers [xs] allocated since. *)
Lemma run_device_alloc {B} buf (f : nat → M T B) a p l xs c :
  (device_alloc buf ≫= f)
    {| self_attrs := a; self_params := p; device := l ++ xs; calls := c |}
  = f (length l + length xs)%nat
      {| self_attrs := a; self_params := p; device := l ++ (xs ++ [buf]);
         calls := c |}.
Proof.
  unfold mbind, M_bind, device_alloc, with_device. cbn.
  by rewrite length_app, <- (assoc_L (++)).
Qed.

Lemma run_device_alloc0 {B} buf (f : nat → M T B) a p d c :
  (device_alloc buf ≫= f)
    {| self_attrs := a; self_params := p; device := d; calls := c |}
  = f (length d + 0)%nat
      {| self_attrs := a; self_params := p; device := d ++ [buf];
         calls := c |}.
Proof.
  unfold mbind, M_bind, device_alloc, with_device. cbn.
  by rewrite Nat.add_0_r.
Qed.

Lemma run_device_read_new {B} n (f : list T → M T B) a p l xs c :
  (device_read (length l + n) ≫= f)
    {| self_attrs := a; self_params := p; device := l ++ xs; calls := c |}
  = f (default [] (xs !! n))
      {| self_attrs := a; self_params := p; device := l ++ xs; calls := c |}.
Proof.
  unfold mbind, M_bind, device_read. cbn.
  rewrite lookup_app_r by lia. do 3 f_equal. lia.
Qed.

Lemma run_device_read_old {B} q (f : list T → M T B) a p l xs c :
  (q < length l)%nat →
  (device_read q ≫= f)
    {| self_attrs := a; self_params := p; device := l ++ xs; calls := c |}
  = f (default [] (l !! q))
      {| self_attrs := a; self_params := p; device := l ++ xs; calls := c |}.
Proof.
  intros Hq. unfold mbind, M_bind, device_read. cbn.
  by rewrite lookup_app_l.
Qed.

Lemma run_device_write_new {B} n new (f : unit → M T B) a p l xs c :
  (device_write (length l + n) new ≫= f)
    {| self_attrs := a; self_params := p; device := l ++ xs; calls := c |}
  = f tt {| self_attrs := a; self_params := p;
            device := l ++ alter (λ old, write_buf old new) n xs;
            calls := c |}.
Proof.
  unfold mbind, M_bind, device_write, with_device. cbn.
  by rewrite alter_app_r.
Qed.
End Run.

(** The condition of an [if]. *)
Ltac solve_bool tac :=
  lazymatch goal with
  | |- bool_decide _ = true => apply bool_decide_eq_true_2; tac
  | |- bool_decide _ = false => apply bool_decide_eq_false_2; tac
  | |- _ => first [ reflexivity | assumption ]
  end.

(** Closing the side conditions of a conversion or of [np.zeros]. *)
Ltac solve_lift tac :=
  first
    [ eassumption
    | apply to_c_int_int; tac
    | apply np_zeros_nonneg; tac
    | apply np_zeros_negative; tac
    | apply to_uintptr_ptr; tac
    | progress cbn [shape_at lookup list_lookup py_mul py_gt py_len
                    first_column_dtype as_index df_len fst snd to_c_int
                    to_c_float];
      reflexivity ].

(** A lookup in a map given by insertions. *)
Ltac solve_lookup :=
  repeat first [ rewrite lookup_insert_eq | rewrite lookup_insert_ne by done ];
  first [ reflexivity | eassumption ].

(** One step of the computation at the head of a goal [m w = R], the world
    [w] being a record of its four parts. *)
Ltac mstep tac :=
  lazymatch goal with
  | |- mbind ?f ?m ?w = ?R =>
      lazymatch w with
      | {| self_attrs := ?a; self_params := ?p; device := ?d; calls := ?c |} =>
          lazymatch m with
          | mbind ?g ?m' => etrans; [exact (run_assoc m' g f w)|]
          | mret ?x => change (f x w = R)
          | raise ?e => change ((@Raise _ e, w) = R)
          | lift (Ok ?x) => change (f x w = R)
          | lift (Raise ?e) => change ((@Raise _ e, w) = R)
          | lift ?r =>
              etrans;
              [apply (run_lift_eq r);
               cbn [n_components n_rows n_cols n_iterations tol algorithm];
               solve_lift tac|]
          | setattr_self ?k ?v =>
              change (f tt {| self_attrs := <[k := v]> a; self_params := p;
                              device := d; calls := c |} = R)
          | setattr_params ?k ?v =>
              change (f tt {| self_attrs := a; self_params := <[k := v]> p;
                              device := d; calls := c |} = R)
          | getattr_self ?k =>
              first [ etrans; [apply (run_getattr_self k); solve_lookup|]
                    | etrans; [apply (run_getattr_self_none k); solve_lookup|] ]
          | getattr_params ?k =>
              first [ etrans; [apply (run_getattr_params k); solve_lookup|]
                    | etrans; [apply (run_getattr_params_none k); solve_lookup|] ]
          | log_call ?x =>
              change (f tt {| self_attrs := a; self_params := p; device := d;
                              calls := c ++ [x] |} = R)
          | device_alloc ?buf =>
              lazymatch d with
              | _ ++ _ => etrans; [apply run_device_alloc|]
              | _ => etrans; [apply run_device_alloc0|]
              end; cbn [app length Nat.add]
          | device_read (length _ + _)%nat =>
              etrans; [apply run_device_read_new|];
              cbn [lookup list_lookup default]
          | device_read _ =>
              etrans; [apply run_device_read_old; tac|]
          | device_write (length _ + _)%nat _ =>
              etrans; [apply run_device_write_new|];
              cbn [alter list_alter]
          | (if ?b then _ else _) =>
              first [ etrans; [apply (run_if_true b); solve_bool tac|]
                    | etrans; [apply (run_if_false b); solve_bool tac|] ]
          | ?h _ _ _ _ _ _ _ _ _ _ _ _ => unfold h
          | ?h _ _ _ _ _ _ _ _ _ _ _ => unfold h
          | ?h _ _ _ _ _ _ _ _ _ _ => unfold h
          | ?h _ _ _ _ _ _ _ _ _ => unfold h
          | ?h _ _ _ _ _ _ _ _ => unfold h
          | ?h _ _ _ _ _ _ _ => unfold h
          | ?h _ _ _ _ _ _ => unfold h
          | ?h _ _ _ _ _ => unfold h
          | ?h _ _ _ _ => unfold h
          | ?h _ _ _ => unfold h
          | ?h _ _ => unfold h
          | ?h _ => unfold h
          end; cbv beta iota zeta
      end
  | |- (_, _) = _ => fail
  | |- mret ?x ?w = ?R => change ((Ok x, w) = R)
  | |- raise ?e ?w = ?R => change ((@Raise _ e, w) = R)
  | |- ?m ?w = ?R => etrans; [exact (run_last m w)|]
  end.

(** The steps, as far as they go; [tac] closes arithmetic side conditions. *)
Ltac mrun tac := repeat mstep tac.

(** A conjunction of closed equations, each by evaluation. *)
Ltac by_computation :=
  repeat match goal with |- _ ∧ _ => split end; vm_compute; reflexivity.


(** ** Unsupported inputs *)

Section Inputs.
Context {T : Type} `{!Elt T}.
Implicit Types (w : world T) (X : pyobj T).

(** C9.  An input that is neither a cudf DataFrame nor a numpy array makes
    [fit], [transform] and [inverse_transform] raise the [TypeError] of
    their first branch, which is the unsupported-input error; the world is
    as it was, so nothing was allocated and no native routine was called. *)
Theorem unsupported_input_raises (lib : NativeLib T) w X (_transform : bool) :
  is_frame_or_array X = false →
  fit lib X _transform w
    = (Raise (TypeError "X matrix format  not supported"), w)
  ∧ transform lib X w
    = (Raise (TypeError "X matrix format  not supported"), w)
  ∧ inverse_transform lib X w
    = (Raise (TypeError "X matrix format  not supported"), w)
  ∧ spec_kind (TypeError "X matrix format  not supported")
    = Some UnsupportedInputType.
Proof.
  intros HX. destruct X; try discriminate HX; repeat split; reflexivity.
Qed.
End Inputs.

Lemma unsupported_input_raises_witness :
  is_frame_or_array (OtherObj "[[1.0, 2.0], [3.0, 4.0]]" : pyobj Z) = false
  ∧ fit idle_lib (OtherObj "[[1.0, 2.0], [3.0, 4.0]]") true (new_estimator 1)
    = (Raise (TypeError "X matrix format  not supported"), new_estimator 1).
Proof.
  split; [reflexivity|].
  apply (unsupported_input_raises idle_lib (new_estimator 1)
           (OtherObj "[[1.0, 2.0], [3.0, 4.0]]") true).
  reflexivity.
Defined.

(** ** get_params *)

Section GetParams.
Context {T : Type} `{!Elt T}.
Implicit Types (w : world T).

(** C8, as amended.  [get_params] leaves the world alone and returns a
    dictionary with exactly the nine keys of its list: [algorithm] bound to
    the attribute of the estimator, every other key to the attribute of
    that name of the params object, or to [None] when the object has no
    such attribute. *)
Theorem get_params_keys w :
  ∃ m, get_params w = (Ok m, w)
     ∧ dom m = get_keys
     ∧ m !! "algorithm"
       = Some (default (Scalar PNone) (self_attrs w !! "algorithm"))
     ∧ ∀ k, k ∈ get_keys → k ≠ "algorithm" →
         m !! k = Some (Scalar (default PNone (self_params w !! k))).
Proof.
  eexists. split; [reflexivity|].
  unfold get_variables, get_params_step. simpl.
  split; [|split].
  - rewrite !dom_insert_L. unfold get_keys. set_solver.
  - reflexivity.
  - intros k Hk Hne. unfold get_keys in Hk.
    rewrite !elem_of_union, !elem_of_singleton in Hk.
    destruct Hk as [[[[[[[[->| ->]| ->]| ->]| ->]| ->]| ->]| ->]| ->]; done.
Qed.
End GetParams.

(** C8, counterexample.  On a new estimator the dictionary has no key
    [n_iterations]; it has the keys [svd_solver], [n_iter], [random_state]
    and [iterated_power], which the documented list lacks, and [n_iter] is
    bound to [None] although the estimator was built with 15 iterations. *)
Lemma get_params_keys_differ :
  ∃ m, get_params (new_estimator 2 : world Z) = (Ok m, new_estimator 2)
     ∧ dom m ≠ documented_keys
     ∧ m !! "n_iterations" = None
     ∧ m !! "svd_solver" = Some (Scalar (PInt COV_EIG_DQ))
     ∧ m !! "iterated_power" = Some (Scalar (PInt 15))
     ∧ m !! "n_iter" = Some (Scalar PNone).
Proof.
  eexists. split; [reflexivity|]. split; [|by vm_compute].
  intros Hdom.
  assert (Hin : "n_iterations" ∈ documented_keys).
  { unfold documented_keys. set_solver. }
  rewrite <- Hdom in Hin. apply elem_of_dom in Hin as [v Hv].
  vm_compute in Hv. discriminate Hv.
Qed.


(** ** set_params *)

Section SetParams.
Context {T : Type} `{!Elt T}.
Implicit Types (w : world T) (items : list (string * pyval)).

Lemma supported_c_name v :
  supported_algorithm v = true → ∃ c, _get_algorithm_c_name v = Ok c.
Proof.
  destruct v as [| | |s]; try discriminate. simpl.
  intros Hs. apply bool_decide_eq_true in Hs.
  repeat case_bool_decide; eauto.
  rewrite !elem_of_cons, elem_of_nil in Hs. tauto.
Qed.

Lemma unsupported_c_name v :
  supported_algorithm v = false → _get_algorithm_c_name v = Raise (KeyError v).
Proof.
  destruct v as [| | |s]; try reflexivity. simpl.
  intros Hs. apply bool_decide_eq_false in Hs.
  repeat case_bool_decide; try reflexivity; subst; exfalso; apply Hs;
    rewrite !elem_of_cons; auto.
Qed.

Lemma set_params_loop_accepted keys items w :
  Forall accepted items → "algorithm" ∈ keys ∨ "algorithm" ∉ items.*1 →
  set_params_loop keys items w = (Ok tt, foldl apply_update w items).
Proof.
  revert w. induction items as [|[k v] items IH]; intros w Hacc Hk; [reflexivity|].
  apply Forall_cons in Hacc as [[Hin Halg] Hacc]. simpl in Hin, Halg.
  assert (Hk' : "algorithm" ∈ keys ∨ "algorithm" ∉ items.*1).
  { destruct Hk as [?|Hk]; [by left|right].
    intros Hin'. apply Hk. rewrite fmap_cons, elem_of_cons. by right. }
  cbn [set_params_loop foldl].
  rewrite (bool_decide_eq_true_2 _ Hin). cbn [negb].
  unfold apply_update at 2. cbn [fst snd].
  destruct (bool_decide (k = "algorithm")) eqn:Ek.
  - apply bool_decide_eq_true in Ek. subst k.
    destruct Hk as [Hk|Hk]; [|exfalso; apply Hk; rewrite fmap_cons, elem_of_cons; by left].
    rewrite (bool_decide_eq_true_2 _ Hk). cbn [andb].
    destruct (supported_c_name v (Halg eq_refl)) as [c Hc].
    unfold mbind, M_bind, setattr_self, setattr_params, lift. rewrite Hc.
    apply IH; done.
  - rewrite andb_false_r.
    unfold mbind, M_bind, setattr_params.
    apply IH; done.
Qed.

Lemma apply_update_frame w item :
  device (apply_update w item) = device w ∧ calls (apply_update w item) = calls w.
Proof. unfold apply_update. by case_bool_decide. Qed.

Lemma foldl_apply_update_frame items w :
  device (foldl apply_update w items) = device w
  ∧ calls (foldl apply_update w items) = calls w.
Proof.
  revert w. induction items as [|it items IH]; intros w; [done|].
  cbn [foldl]. destruct (IH (apply_update w it)) as [-> ->].
  apply apply_update_frame.
Qed.

(** An item list leaves the attribute [k] of the params object alone when
    [k] is not among its keys, nor written on behalf of [algorithm]. *)
Lemma foldl_apply_update_params_other items w k :
  k ∉ items.*1 → (k = "svd_solver" → "algorithm" ∉ items.*1) →
  self_params (foldl apply_update w items) !! k = self_params w !! k.
Proof.
  revert w. induction items as [|[k0 v0] items IH]; intros w Hk Hs; [done|].
  rewrite fmap_cons, not_elem_of_cons in Hk. destruct Hk as [Hne Hk].
  cbn [foldl]. rewrite IH; [|done|].
  - unfold apply_update. cbn [fst snd]. case_bool_decide as Ha; cbn.
    + subst k0. apply lookup_insert_ne. intros <-.
      apply Hs; [done|]. rewrite fmap_cons, elem_of_cons. by left.
    + by apply lookup_insert_ne.
  - intros Hks Hin. apply Hs; [done|]. rewrite fmap_cons.
    rewrite elem_of_cons. by right.
Qed.

Lemma foldl_apply_update_attrs_other items w :
  "algorithm" ∉ items.*1 →
  self_attrs (foldl apply_update w items) = self_attrs w.
Proof.
  revert w. induction items as [|[k0 v0] items IH]; intros w Hk; [done|].
  rewrite fmap_cons, not_elem_of_cons in Hk. destruct Hk as [Hne Hk].
  cbn [foldl]. rewrite IH by done.
  unfold apply_update. cbn [fst snd]. by rewrite bool_decide_eq_false_2.
Qed.

Lemma foldl_apply_update_params items w k v :
  NoDup items.*1 → (k, v) ∈ items → k ≠ "algorithm" →
  (k = "svd_solver" → "algorithm" ∉ items.*1) →
  self_params (foldl apply_update w items) !! k = Some v.
Proof.
  revert w. induction items as [|[k0 v0] items IH]; intros w Hnd Hin Hne Hs.
  { by apply elem_of_nil in Hin. }
  rewrite fmap_cons in Hnd. apply NoDup_cons in Hnd as [Hk0 Hnd].
  cbn [foldl]. apply elem_of_cons in Hin as [Heq|Hin].
  - injection Heq as <- <-.
    rewrite foldl_apply_update_params_other; [|done|].
    + unfold apply_update. cbn [fst snd]. rewrite bool_decide_eq_false_2 by done.
      cbn. apply lookup_insert_eq.
    + intros Hks Hin. apply Hs; [done|]. rewrite fmap_cons.
      rewrite elem_of_cons. by right.
  - apply IH; [done..|]. intros Hks Hin'. apply Hs; [done|].
    rewrite fmap_cons, elem_of_cons. by right.
Qed.

Lemma foldl_apply_update_algorithm items w v :
  NoDup items.*1 → ("algorithm", v) ∈ items →
  self_attrs (foldl apply_update w items) !! "algorithm" = Some (Scalar v)
  ∧ ("svd_solver" ∉ items.*1 → ∀ c, _get_algorithm_c_name v = Ok c →
       self_params (foldl apply_update w items) !! "svd_solver" = Some c).
Proof.
  revert w. induction items as [|[k0 v0] items IH]; intros w Hnd Hin.
  { by apply elem_of_nil in Hin. }
  rewrite fmap_cons in Hnd. apply NoDup_cons in Hnd as [Hk0 Hnd].
  cbn [foldl]. apply elem_of_cons in Hin as [Heq|Hin].
  - injection Heq as <- <-. split.
    + rewrite foldl_apply_update_attrs_other by done.
      unfold apply_update. cbn. apply lookup_insert_eq.
    + intros Hs c Hc. rewrite fmap_cons, not_elem_of_cons in Hs.
      rewrite foldl_apply_update_params_other; [| tauto | done].
      unfold apply_update. cbn [fst snd]. rewrite bool_decide_eq_true_2 by done.
      cbn. rewrite Hc. apply lookup_insert_eq.
  - destruct (IH (apply_update w (k0, v0)) Hnd Hin) as [H1 H2].
    split; [done|]. intros Hs. apply H2.
    rewrite fmap_cons, not_elem_of_cons in Hs. tauto.
Qed.

(** The loop runs through a prefix of accepted items as [apply_update]
    says, and goes on with the rest. *)
Lemma set_params_loop_app keys pre rest w :
  Forall accepted pre → "algorithm" ∈ keys ∨ "algorithm" ∉ pre.*1 →
  set_params_loop keys (pre ++ rest) w
  = set_params_loop keys rest (foldl apply_update w pre).
Proof.
  revert w. induction pre as [|[k v] pre IH]; intros w Hacc Hk; [reflexivity|].
  apply Forall_cons in Hacc as [[Hin Halg] Hacc]. simpl in Hin, Halg.
  assert (Hk' : "algorithm" ∈ keys ∨ "algorithm" ∉ pre.*1).
  { destruct Hk as [?|Hk]; [by left|right].
    intros Hin'. apply Hk. rewrite fmap_cons, elem_of_cons. by right. }
  cbn [app set_params_loop foldl].
  rewrite (bool_decide_eq_true_2 _ Hin). cbn [negb].
  unfold apply_update at 2. cbn [fst snd].
  destruct (bool_decide (k = "algorithm")) eqn:Ek.
  - apply bool_decide_eq_true in Ek. subst k.
    destruct Hk as [Hk|Hk];
      [|exfalso; apply Hk; rewrite fmap_cons, elem_of_cons; by left].
    rewrite (bool_decide_eq_true_2 _ Hk). cbn [andb].
    destruct (supported_c_name v (Halg eq_refl)) as [c Hc].
    unfold mbind, M_bind, setattr_self, setattr_params, lift. rewrite Hc.
    apply IH; done.
  - rewrite andb_false_r.
    unfold mbind, M_bind, setattr_params.
    apply IH; done.
Qed.

Lemma set_params_loop_unknown keys k v rest w :
  k ∉ set_variables →
  set_params_loop keys ((k, v) :: rest) w
  = (Raise (ValueError "Invalid parameter %s for estimator"), w).
Proof.
  intros Hk. cbn [set_params_loop].
  by rewrite (bool_decide_eq_false_2 _ Hk).
Qed.

Lemma set_params_loop_bad_algorithm keys v rest w :
  "algorithm" ∈ keys → supported_algorithm v = false →
  set_params_loop keys (("algorithm", v) :: rest) w
  = (Raise (KeyError v), with_attrs <["algorithm" := Scalar v]> w).
Proof.
  intros Hk Hv. cbn [set_params_loop].
  rewrite (bool_decide_eq_true_2 _ Hk).
  unfold mbind, M_bind, setattr_self, lift.
  by rewrite (unsupported_c_name v Hv).
Qed.

Lemma set_params_nonempty items w :
  items ≠ [] →
  set_params items w
  = (set_params_loop (items.*1) items ≫= λ _, mret RefParams) w.
Proof. by destruct items. Qed.

(** C7, as amended.  [set_params] goes through the updates in order.  With
    no update it returns the estimator itself and changes nothing.  When the
    items before a key outside its list are all accepted, it raises a
    [ValueError] at that key, the items before it being applied already.
    When every item is accepted, each is applied and the params object is
    returned: a key other than [algorithm] is then bound to its value in
    the params object ([svd_solver] unless [algorithm] is listed too), and
    [algorithm] is bound in the estimator, its C name in [svd_solver]
    (unless [svd_solver] is listed too). *)
Theorem set_params_in_order w items :
  NoDup items.*1 →
  (items = [] → set_params items w = (Ok RefSelf, w))
  ∧ (∀ pre k v post, items = pre ++ (k, v) :: post →
       Forall accepted pre → k ∉ set_variables →
       ∃ msg, set_params items w
              = (Raise (ValueError msg), foldl apply_update w pre))
  ∧ (items ≠ [] → Forall accepted items →
       let w' := foldl apply_update w items in
       set_params items w = (Ok RefParams, w')
       ∧ device w' = device w ∧ calls w' = calls w
       ∧ (∀ k v, (k, v) ∈ items → k ≠ "algorithm" →
            (k = "svd_solver" → "algorithm" ∉ items.*1) →
            self_params w' !! k = Some v)
       ∧ (∀ v, ("algorithm", v) ∈ items →
            self_attrs w' !! "algorithm" = Some (Scalar v)
            ∧ ("svd_solver" ∉ items.*1 →
               ∀ c, _get_algorithm_c_name v = Ok c →
                    self_params w' !! "svd_solver" = Some c))).
Proof.
  intros Hnd. split; [by intros ->|]. split.
  - intros pre k v post -> Hacc Hk.
    eexists. rewrite set_params_nonempty by by destruct pre.
    unfold mbind, M_bind.
    rewrite set_params_loop_app; [|done|].
    + by rewrite set_params_loop_unknown.
    + destruct (decide ("algorithm" ∈ pre.*1)) as [Hin|]; [left|by right].
      rewrite fmap_app, elem_of_app. by left.
  - intros Hne Hacc w'. split; [|split; [|split; [|split]]].
    + rewrite set_params_nonempty by done. unfold mbind, M_bind.
      rewrite set_params_loop_accepted; [done|done|].
      destruct (decide ("algorithm" ∈ items.*1)); [by left|by right].
    + apply foldl_apply_update_frame.
    + apply foldl_apply_update_frame.
    + intros k v. by apply foldl_apply_update_params.
    + intros v. by apply foldl_apply_update_algorithm.
Qed.

(** C10, as amended.  When the key [algorithm] carries a value that is
    none of ['full'], ['auto'], ['jacobi'], and every item before it is
    accepted (no key outside the list comes first), [set_params] raises the
    [KeyError] of the name lookup, with the value as its key.  By then the
    items before it are applied and the attribute [algorithm] of the
    estimator holds the unsupported value, while the params object is as
    those items left it ([svd_solver] is not written). *)
Theorem set_params_unsupported_algorithm w pre v post :
  Forall accepted pre → "algorithm" ∉ pre.*1 →
  supported_algorithm v = false →
  let w1 := foldl apply_update w pre in
  let w' := with_attrs <["algorithm" := Scalar v]> w1 in
  set_params (pre ++ ("algorithm", v) :: post) w = (Raise (KeyError v), w')
  ∧ self_attrs w' !! "algorithm" = Some (Scalar v)
  ∧ self_params w' = self_params w1
  ∧ ("svd_solver" ∉ pre.*1 →
     self_params w' !! "svd_solver" = self_params w !! "svd_solver")
  ∧ spec_kind (KeyError v) = None.
Proof.
  intros Hacc Hpre Hv w1 w'. split; [|split; [|split; [|split]]].
  - rewrite set_params_nonempty by by destruct pre.
    unfold mbind, M_bind.
    rewrite set_params_loop_app; [|done|by right].
    rewrite set_params_loop_bad_algorithm; [done| |done].
    rewrite fmap_app, elem_of_app. right. rewrite fmap_cons, elem_of_cons.
    by left.
  - apply lookup_insert_eq.
  - reflexivity.
  - intros Hs. unfold w', w1. cbn.
    by apply foldl_apply_update_params_other.
  - reflexivity.
Qed.
End SetParams.

Lemma set_params_in_order_witness :
  NoDup [("n_components", PInt 3); ("algorithm", PStr "jacobi")].*1
  ∧ ∃ w', set_params [("n_components", PInt 3); ("algorithm", PStr "jacobi")]
            (new_estimator 2 : world Z) = (Ok RefParams, w')
          ∧ self_params w' !! "n_components" = Some (PInt 3)
          ∧ self_attrs w' !! "algorithm" = Some (Scalar (PStr "jacobi"))
          ∧ self_params w' !! "svd_solver" = Some (PInt COV_EIG_JACOBI).
Proof.
  assert (Hnd : NoDup [("n_components", PInt 3); ("algorithm", PStr "jacobi")].*1).
  { compute_done. }
  split; [exact Hnd|].
  destruct (set_params_in_order (new_estimator 2 : world Z) _ Hnd)
    as (_ & _ & Happlied).
  destruct Happlied as (Hrun & _ & _ & Hkeys & Halg).
  - discriminate.
  - repeat (constructor; [split; cbn; [compute_done|try discriminate]|]).
    + reflexivity.
    + constructor.
  - eexists. split; [exact Hrun|]. split; [|split].
    + apply Hkeys; [|discriminate|discriminate].
      rewrite elem_of_cons. by left.
    + apply Halg. rewrite !elem_of_cons. right. by left.
    + apply (Halg (PStr "jacobi")); [|compute_done|reflexivity].
      rewrite !elem_of_cons. right. by left.
Defined.

(** C7, counterexample.  Every key of the updates is in the list of
    [set_params], and still nothing is returned: the unsupported value of
    [algorithm] raises a [KeyError]. *)
Lemma set_params_listed_key_raises :
  Forall (λ item : string * pyval, item.1 ∈ set_variables)
    [("algorithm", PStr "randomized")]
  ∧ ∃ w', set_params [("algorithm", PStr "randomized")]
            (new_estimator 2 : world Z)
          = (Raise (KeyError (PStr "randomized")), w').
Proof.
  split.
  - repeat constructor.
  - eexists. reflexivity.
Qed.

Lemma set_params_unsupported_algorithm_witness :
  Forall accepted [("tol", PFloat (1 # 100))]
  ∧ ("algorithm" ∉ ([("tol", PFloat (1 # 100))].*1))
  ∧ supported_algorithm (PStr "randomized") = false
  ∧ ∃ w', set_params [("tol", PFloat (1 # 100)); ("algorithm", PStr "randomized")]
            (new_estimator 2 : world Z)
          = (Raise (KeyError (PStr "randomized")), w')
          ∧ self_attrs w' !! "algorithm" = Some (Scalar (PStr "randomized")).
Proof.
  assert (Hacc : Forall accepted [("tol", PFloat (1 # 100))]).
  { constructor; [|constructor]. split; cbn; [compute_done|discriminate]. }
  assert (Hpre : "algorithm" ∉ ([("tol", PFloat (1 # 100))].*1)).
  { compute_done. }
  split; [exact Hacc|]. split; [exact Hpre|]. split; [reflexivity|].
  destruct (set_params_unsupported_algorithm (new_estimator 2 : world Z)
              [("tol", PFloat (1 # 100))] (PStr "randomized") [] Hacc Hpre
              eq_refl) as (Hrun & Hattr & _).
  eexists. split; [exact Hrun|exact Hattr].
Defined.

(** C10, counterexample.  With a key outside the list before it, the
    unsupported value of [algorithm] is never looked up: the call raises
    the [ValueError] of the unknown key, and the attribute [algorithm]
    keeps its value. *)
Lemma set_params_unknown_key_first :
  ∃ w', set_params [("whiten", PInt 1); ("algorithm", PStr "randomized")]
          (new_estimator 2 : world Z)
        = (Raise (ValueError "Invalid parameter %s for estimator"), w')
      ∧ self_attrs w' !! "algorithm" = Some (Scalar (PStr "full")).
Proof. eexists. split; reflexivity. Qed.


(** ** fit *)

(** Arithmetic side conditions, lengths of literal lists included. *)
Ltac arith := cbn [length df_len fst snd] in *; unfold INT_MIN, INT_MAX in *; lia.

Section Fit.
Context {T : Type} `{!Elt T}.
Implicit Types (w : world T) (X : pyobj T).

(** An input with a shape is a frame with a first column or an array of
    two dimensions or more. *)
Lemma input_shape_inv X r c :
  input_shape X = Some (r, c) →
  (∃ dt name data cols, X = DataFrame dt ((name, data) :: cols)
     ∧ r = length data ∧ c = S (length cols) ∧ (1 ≤ length data)%nat)
  ∨ (∃ dt shape fdata, X = NdArray dt (r :: c :: shape) fdata).
Proof.
  destruct X as [| |dt cols|dt shape fdata| | |]; try discriminate.
  - destruct cols as [|[name data] cols]; [discriminate|]. cbn.
    case_bool_decide; [discriminate|]. intros [= <- <-].
    left. exists dt, name, data, cols. repeat split; lia.
  - destruct shape as [|r' [|c' shape]]; try discriminate. intros [= <- <-].
    right. by exists dt, shape, fdata.
Qed.

(** C1, as amended.  On a non-empty input (a frame, or an array of two
    dimensions or more, with at least one row and one column), with
    [n_components] an integer above the number of columns (the row count
    within the C [int] range and the other parameters convertible to the C
    struct), [fit] raises before any native routine is called.  When
    [n_components] fits a C [int], it raises the [ValueError] of its
    check, which is the invalid-parameter error; by then the input has
    been copied to the device and the seven internal buffers have been
    allocated, each filled with zeros, [components_] is the new device
    array of [n_components * n_cols] zeros, and [n_cols] of the params
    object is the column count of this input.  When [n_components] does
    not fit a C [int], it raises the [OverflowError] of the conversion to
    the C struct, which is no error of the wrapper's own; by then the
    input has been copied to the device and nothing else allocated. *)
Theorem fit_too_many_components (lib : NativeLib T) w X (_transform : bool)
    k r c :
  input_shape X = Some (r, c) → (1 ≤ r)%nat → (1 ≤ c)%nat →
  self_params w !! "n_components" = Some (PInt k) →
  Z.of_nat c < k → Z.of_nat r ≤ INT_MAX →
  params_convert w →
  let zeros (n : Z) := replicate (Z.to_nat n) (elt_zero : T) in
  (k ≤ INT_MAX →
   ∃ w', fit lib X _transform w
         = (Raise (ValueError " n_components must be < n_features"), w')
       ∧ spec_kind (ValueError " n_components must be < n_features")
         = Some InvalidParameter
       ∧ calls w' = calls w
       ∧ device w'
         = device w ++
           [input_buffer X; zeros (Z.of_nat r * k); zeros (k * Z.of_nat c);
            zeros k; zeros k; zeros (Z.of_nat c); zeros k; zeros 1]
       ∧ self_attrs w' !! "components_"
         = Some (DevArray (length (device w) + 2))
       ∧ self_params w' !! "n_cols" = Some (PInt (Z.of_nat c)))
  ∧ (INT_MAX < k →
     ∃ msg w', fit lib X _transform w = (Raise (OverflowError msg), w')
             ∧ spec_kind (OverflowError msg) = None
             ∧ calls w' = calls w
             ∧ device w' = device w ++ [input_buffer X]
             ∧ self_params w' !! "n_cols" = Some (PInt (Z.of_nat c))).
Proof.
  intros HX _ _ Hk Hck Hr
    (vi & vt & vs & i & t & s & Hvi & Hi & Hvt & Ht & Hvs & Hs) zeros.
  assert (0 ≤ Z.of_nat r * k) by (apply Z.mul_nonneg_nonneg; lia).
  assert (0 ≤ k * Z.of_nat c) by (apply Z.mul_nonneg_nonneg; lia).
  destruct w as [wa wp wd wc]. cbn in Hk, Hvi, Hvt, Hvs.
  split.
  - intros Hmax.
    apply input_shape_inv in HX
      as [(dt & name & data & cols & -> & -> & -> & Hrows)
         |(dt & shape & fdata & ->)];
      (eexists; split; [unfold fit; mrun arith; reflexivity|];
       cbn [calls device self_attrs self_params input_buffer];
       split; [reflexivity|]; split; [reflexivity|];
       split; [reflexivity|]; split; solve_lookup).
  - intros Hmax.
    assert (Hconv : to_c_int (PInt k)
                    = Raise (OverflowError "value too large to convert to int")).
    { cbn. unfold in_int_range.
      rewrite bool_decide_eq_false_2 by (unfold INT_MIN, INT_MAX in *; lia).
      by rewrite bool_decide_eq_true_2 by done. }
    apply input_shape_inv in HX
      as [(dt & name & data & cols & -> & -> & -> & Hrows)
         |(dt & shape & fdata & ->)];
      (eexists _, _; split; [unfold fit; mrun arith; reflexivity|];
       cbn [calls device self_attrs self_params input_buffer];
       split; [reflexivity|]; split; [reflexivity|];
       split; [reflexivity|solve_lookup]).
Qed.

(** C4, as amended.  On a non-empty input, with [n_components] a negative
    integer (the shape within the C [int] range and the other parameters
    convertible to the C struct), [fit] fails with an error that is none
    of its own: the [ValueError] numpy raises for the size of the first
    zero buffer when [n_components] fits a C [int], the [OverflowError] of
    the conversion to the C struct when it does not.  In both cases no
    native routine has been called, but the input matrix has been copied
    to the device. *)
Theorem fit_negative_components (lib : NativeLib T) w X (_transform : bool)
    k r c :
  input_shape X = Some (r, c) → (1 ≤ r)%nat → (1 ≤ c)%nat →
  self_params w !! "n_components" = Some (PInt k) →
  k < 0 → Z.of_nat r ≤ INT_MAX → Z.of_nat c ≤ INT_MAX →
  params_convert w →
  ∃ e w', fit lib X _transform w = (Raise e, w')
        ∧ spec_kind e = None
        ∧ calls w' = calls w
        ∧ device w' = device w ++ [input_buffer X]
        ∧ (INT_MIN ≤ k →
           e = ValueError "negative dimensions are not allowed")
        ∧ (k < INT_MIN → ∃ msg, e = OverflowError msg).
Proof.
  intros HX Hr1 _ Hk Hneg Hr Hc
    (vi & vt & vs & i & t & s & Hvi & Hi & Hvt & Ht & Hvs & Hs).
  assert (Z.of_nat r * k < 0) by (apply Z.mul_pos_neg; lia).
  destruct w as [wa wp wd wc]. cbn in Hk, Hvi, Hvt, Hvs.
  destruct (decide (INT_MIN ≤ k)) as [Hmin|Hmin].
  - apply input_shape_inv in HX
      as [(dt & name & data & cols & -> & -> & -> & Hrows)
         |(dt & shape & fdata & ->)];
      (eexists _, _; split; [unfold fit; mrun arith; reflexivity|];
       cbn [calls device input_buffer];
       split; [reflexivity|]; split; [reflexivity|]; split; [reflexivity|];
       split; [reflexivity|intros ?; lia]).
  - assert (Hconv : to_c_int (PInt k)
                    = Raise (OverflowError "value too large to convert to int")).
    { cbn. unfold in_int_range. by rewrite bool_decide_eq_true_2 by lia. }
    apply input_shape_inv in HX
      as [(dt & name & data & cols & -> & -> & -> & Hrows)
         |(dt & shape & fdata & ->)];
      (eexists _, _; split; [unfold fit; mrun arith; reflexivity|];
       cbn [calls device input_buffer];
       split; [reflexivity|]; split; [reflexivity|]; split; [reflexivity|];
       split; [intros ?; lia|intros _; eexists; reflexivity]).
Qed.
End Fit.

Lemma fit_too_many_components_witness :
  input_shape X_3x3 = Some (3%nat, 3%nat)
  ∧ self_params (new_estimator 4 : world Z) !! "n_components" = Some (PInt 4)
  ∧ (∃ w', fit idle_lib X_3x3 true (new_estimator 4)
           = (Raise (ValueError " n_components must be < n_features"), w')
         ∧ calls w' = []
         ∧ device w' !! 2%nat = Some (replicate 12 0))
  ∧ self_params (new_estimator 2147483648 : world Z) !! "n_components"
    = Some (PInt 2147483648)
  ∧ ∃ msg w', fit idle_lib X_3x3 true (new_estimator 2147483648)
              = (Raise (OverflowError msg), w')
            ∧ device w' = [input_buffer X_3x3].
Proof.
  assert (Hconv : ∀ k, params_convert (new_estimator k : world Z)).
  { intros k.
    exists (PInt 15), (PFloat (1 # 10000000)), (PInt 0), 15, (1 # 10000000)%Q, 0.
    repeat split; reflexivity. }
  assert (H3 : (1 ≤ 3)%nat) by lia.
  assert (Hr : Z.of_nat 3 ≤ INT_MAX) by (unfold INT_MAX; lia).
  split; [reflexivity|]. split; [reflexivity|]. split; [|split; [reflexivity|]].
  - destruct (fit_too_many_components idle_lib (new_estimator 4) X_3x3 true
                4 3 3 eq_refl H3 H3 eq_refl) as [Hsmall _];
      [lia|exact Hr|apply Hconv|].
    destruct Hsmall as (w' & Hrun & _ & Hcalls & Hdev & _);
      [unfold INT_MAX; lia|].
    exists w'. split; [exact Hrun|]. split; [exact Hcalls|].
    rewrite Hdev. reflexivity.
  - destruct (fit_too_many_components idle_lib (new_estimator 2147483648)
                X_3x3 true 2147483648 3 3 eq_refl H3 H3 eq_refl) as [_ Hbig];
      [lia|exact Hr|apply Hconv|].
    destruct Hbig as (msg & w' & Hrun & _ & _ & Hdev & _);
      [unfold INT_MAX; lia|].
    exists msg, w'. split; [exact Hrun|exact Hdev].
Defined.

(** C1, counterexample.  With 4 components asked of a 3x3 matrix the
    error is raised, and the allocations made before it are there to see:
    the device memory, empty before the call, holds eight buffers, and
    [components_], [None] before the call, is a device array. *)
Lemma fit_too_many_components_allocates :
  let out := fit idle_lib X_3x3 true (new_estimator 4) in
  out.1 = Raise (ValueError " n_components must be < n_features")
  ∧ device (new_estimator 4 : world Z) = []
  ∧ length (device out.2) = 8%nat
  ∧ self_attrs (new_estimator 4 : world Z) !! "components_"
    = Some (Scalar PNone)
  ∧ self_attrs out.2 !! "components_" = Some (DevArray 2)
  ∧ device out.2 !! 2%nat = Some (replicate 12 0).
Proof. cbv zeta. by_computation. Qed.

Lemma fit_negative_components_witness :
  input_shape X_3x3 = Some (3%nat, 3%nat)
  ∧ self_params (new_estimator (-1) : world Z) !! "n_components"
    = Some (PInt (-1))
  ∧ ∃ e w', fit idle_lib X_3x3 true (new_estimator (-1)) = (Raise e, w')
          ∧ e = ValueError "negative dimensions are not allowed"
          ∧ calls w' = []
          ∧ device w' = [input_buffer X_3x3].
Proof.
  split; [reflexivity|]. split; [reflexivity|].
  destruct (fit_negative_components idle_lib (new_estimator (-1)) X_3x3 true
              (-1) 3 3) as (e & w' & Hrun & _ & Hcalls & Hdev & He & _).
  - reflexivity.
  - lia.
  - lia.
  - reflexivity.
  - lia.
  - unfold INT_MAX. lia.
  - unfold INT_MAX. lia.
  - exists (PInt 15), (PFloat (1 # 10000000)), (PInt 0), 15, (1 # 10000000)%Q, 0.
    repeat split; reflexivity.
  - exists e, w'. split; [exact Hrun|]. split; [|split; [exact Hcalls|exact Hdev]].
    apply He. unfold INT_MIN. lia.
Defined.

(** C4, counterexample.  With [n_components = -1] the error comes after
    the device has been touched: the device memory, empty before the
    call, holds the copy of the input when the error is raised. *)
Lemma fit_negative_components_touches_device :
  let out := fit idle_lib X_3x3 true (new_estimator (-1)) in
  out.1 = Raise (ValueError "negative dimensions are not allowed")
  ∧ device (new_estimator (-1) : world Z) = []
  ∧ device out.2 = [[1; 2; 5; 4; 2; 1; 4; 2; 1]]
  ∧ calls out.2 = [].
Proof. cbv zeta. by_computation. Qed.


(** ** transform and inverse_transform *)

Section Transform.
Context {T : Type} `{!Elt T}.
Implicit Types (w : world T) (X : pyobj T).

Lemma length_frame_of_slices (buf : list T) n k :
  length (frame_of_slices buf n k) = Z.to_nat n.
Proof. unfold frame_of_slices. by rewrite length_fmap, length_seqZ. Qed.

(** C2, as amended.  [transform] has no check of the column count.  On a
    fitted model, for a non-empty input of any number of columns [c]
    (nothing relates it to [c0], the [n_cols] recorded at fit time), with
    sizes that fit a C [int], it raises nothing: it calls [tsvdTransform]
    once, with the row count of the input and with [c0], and returns a
    frame of [n_components] columns; the model is unchanged. *)
Theorem transform_any_column_count (lib : NativeLib T) w X k c0 r c :
  fitted w → input_shape X = Some (r, c) → (1 ≤ r)%nat → (1 ≤ c)%nat →
  self_params w !! "n_components" = Some (PInt k) →
  self_params w !! "n_cols" = Some (PInt c0) →
  1 ≤ k ≤ INT_MAX → INT_MIN ≤ c0 ≤ INT_MAX →
  Z.of_nat r ≤ INT_MAX → Z.of_nat r * k ≤ INT_MAX →
  ∃ cols w',
    transform lib X w = (Ok (DataFrame (input_dtype X) cols), w')
    ∧ length cols = Z.to_nat k
    ∧ calls w'
      = calls w ++
        [{| nc_name := "tsvdTransform"; nc_prec := prec_of (input_dtype X);
            nc_params :=
              {| n_components := k; n_rows := Z.of_nat r; n_cols := c0;
                 n_iterations := n_iterations (params_default lib);
                 tol := tol (params_default lib);
                 algorithm := algorithm (params_default lib) |} |}]
    ∧ model_unchanged w w'.
Proof.
  intros (p & Hp & Hlt & Hmax) HX _ _ Hk Hc0 Hkr Hc0r Hr Hrk.
  assert (Hmul : c_int_mul (Z.of_nat r) k = Z.of_nat r * k).
  { apply wrap_int_id. unfold INT_MIN. nia. }
  assert (0 ≤ c_int_mul (Z.of_nat r) k) by (rewrite Hmul; nia).
  destruct w as [wa wp wd wc]. cbn in Hp, Hlt, Hk, Hc0.
  apply input_shape_inv in HX
    as [(dt & name & data & cols & -> & -> & -> & Hrows)
       |(dt & shape & fdata & ->)].
  - eexists _, _. split; [unfold transform; mrun arith; reflexivity|].
    split; [apply length_frame_of_slices|]. split; [reflexivity|].
    split; [reflexivity|split; [reflexivity|]]. cbn. eexists. reflexivity.
  - eexists _, _. split; [unfold transform; mrun arith; reflexivity|].
    split; [apply length_frame_of_slices|]. split; [reflexivity|].
    split; [reflexivity|split; [reflexivity|]]. cbn. eexists. reflexivity.
Qed.
End Transform.


Lemma run_to {T A} (m : M T A) (w : world T) r w' :
  m w = (r, w') → (m w).1 = r.
Proof. by intros ->. Qed.

(** No [raise] statement of the wrapper signals a missing fit (nor a shape
    mismatch). *)
Lemma spec_kind_never_unfitted e :
  spec_kind e ≠ Some UnfittedModelError ∧ spec_kind e ≠ Some ShapeMismatch.
Proof.
  destruct e; cbn; repeat case_bool_decide; repeat case_match;
    split; discriminate.
Qed.

(** A case in which the method [f] raises: run it, then read off the
    world. *)
Ltac raises_leaf f :=
  eexists _, _;
  split; [unfold f; mrun arith; reflexivity|];
  cbn [calls self_attrs self_params];
  split; [apply spec_kind_never_unfitted|];
  repeat split; reflexivity.

Section Unfitted.
Context {T : Type} `{!Elt T}.
Implicit Types (w : world T) (X : pyobj T).

(** What [__init__] builds when it accepts the algorithm. *)
Lemma init_world nc tl it rs alg w0 :
  __init__ nc tl it rs alg (blank : world T) = (Ok tt, w0) →
  ∃ wa c,
    w0 = {| self_attrs := wa;
            self_params :=
              <["n_rows" := PNone]> (<["n_cols" := PNone]> (
              <["random_state" := rs]> (<["iterated_power" := it]> (
              <["tol" := tl]> (<["svd_solver" := c]> (
              <["n_components" := nc]> ∅))))));
            device := []; calls := [] |}
    ∧ wa !! "components_ptr" = Some (Scalar PNone).
Proof.
  unfold __init__, blank.
  destruct (supported_algorithm alg) eqn:Halg.
  - destruct (supported_c_name alg Halg) as [c Hc].
    intros Hrun. eexists _, c. 
    match type of Hrun with
    | ?lhs = _ =>
        eassert (E : lhs = _) by (mrun arith; reflexivity);
        rewrite E in Hrun; clear E
    end.
    injection Hrun as <-. split; [reflexivity|]. solve_lookup.
  - intros Hrun.
    match type of Hrun with
    | ?lhs = _ =>
        eassert (E : lhs = _) by (mrun arith; reflexivity);
        rewrite E in Hrun; clear E
    end.
    discriminate Hrun.
Qed.

(** C3, as amended.  On an estimator that [__init__] has just built,
    [transform] and [inverse_transform] never return, whatever the input:
    each raises an exception before any native routine is called and
    leaves the estimator as it was.  The exception is none the wrapper
    raises for a missing fit (it has no such error): for an input with rows
    and columns, a row count that fits a C [int] and an [n_components] that
    converts to one, it is the [TypeError] of assigning [n_cols], still
    [None], to the [int] field of the C struct. *)
Theorem unfitted_transform_raises (lib : NativeLib T) nc tl it rs alg w0 X :
  __init__ nc tl it rs alg (blank : world T) = (Ok tt, w0) →
  (∃ e w', transform lib X w0 = (Raise e, w')
           ∧ spec_kind e ≠ Some UnfittedModelError
           ∧ calls w' = [] ∧ self_attrs w' = self_attrs w0
           ∧ self_params w' = self_params w0)
  ∧ (∃ e w', inverse_transform lib X w0 = (Raise e, w')
             ∧ spec_kind e ≠ Some UnfittedModelError
             ∧ calls w' = [] ∧ self_attrs w' = self_attrs w0
             ∧ self_params w' = self_params w0)
  ∧ (∀ r c k, input_shape X = Some (r, c) → to_c_int nc = Ok k →
       Z.of_nat r ≤ INT_MAX →
       (transform lib X w0).1 = Raise (TypeError "an integer is required")
       ∧ (inverse_transform lib X w0).1
         = Raise (TypeError "an integer is required")
       ∧ spec_kind (TypeError "an integer is required") = None).
Proof.
  intros Hinit.
  destruct (init_world _ _ _ _ _ _ Hinit) as (wa & c & -> & Hptr).
  clear Hinit.
  split; [|split].
  - destruct X as [v|d|dt cols|dt shape fdata|p|p|s];
      try (raises_leaf (@transform)).
    + destruct cols as [|[name data] cols]; [raises_leaf (@transform)|].
      destruct (decide (length data < 1)%nat); [raises_leaf (@transform)|].
      destruct (to_c_int nc) eqn:?; [|raises_leaf (@transform)].
      destruct (in_int_range (Z.of_nat (length data))) eqn:?;
        raises_leaf (@transform).
    + destruct shape as [|r [|c' shape]];
        [raises_leaf (@transform)..|].
      destruct (to_c_int nc) eqn:?; [|raises_leaf (@transform)].
      destruct (in_int_range (Z.of_nat r)) eqn:?; raises_leaf (@transform).
  - destruct X as [v|d|dt cols|dt shape fdata|p|p|s];
      try (raises_leaf (@inverse_transform)).
    + destruct cols as [|[name data] cols];
        [raises_leaf (@inverse_transform)|].
      destruct (decide (length data < 1)%nat);
        [raises_leaf (@inverse_transform)|].
      destruct (to_c_int nc) eqn:?; [|raises_leaf (@inverse_transform)].
      destruct (in_int_range (Z.of_nat (length data))) eqn:?;
        raises_leaf (@inverse_transform).
    + destruct (to_c_int nc) eqn:?; [|raises_leaf (@inverse_transform)].
      destruct shape as [|r shape]; [raises_leaf (@inverse_transform)|].
      destruct (in_int_range (Z.of_nat r)) eqn:?;
        raises_leaf (@inverse_transform).
  - intros r c' k HX Hnc Hr.
    apply input_shape_inv in HX
      as [(dt & name & data & cols & -> & -> & -> & Hrows)
         |(dt & shape & fdata & ->)].
    + split; [|split; [|reflexivity]].
      * erewrite (run_to (transform lib _));
          [reflexivity|unfold transform; mrun arith; reflexivity].
      * erewrite (run_to (inverse_transform lib _));
          [reflexivity|unfold inverse_transform; mrun arith; reflexivity].
    + split; [|split; [|reflexivity]].
      * erewrite (run_to (transform lib _));
          [reflexivity|unfold transform; mrun arith; reflexivity].
      * erewrite (run_to (inverse_transform lib _));
          [reflexivity|unfold inverse_transform; mrun arith; reflexivity].
Qed.
End Unfitted.


(** ** Calling transform twice *)

Ltac solve_unchanged :=
  split; [reflexivity|split; [reflexivity|]];
  cbn [device];
  first [ eexists; reflexivity
        | exists []; by rewrite app_nil_r
        | eexists; rewrite <- (assoc_L (++)); reflexivity ].

(** A case of [transform] run twice. *)
Ltac twice_leaf :=
  eexists _, _, _;
  split; [unfold transform; mrun arith; reflexivity|];
  split; [unfold transform; mrun arith; reflexivity|];
  split; solve_unchanged.

(** The part of [transform] after the input is on the device, by cases on
    what the conversions to the C struct give. *)
Ltac twice_tail wp nrows :=
  destruct (wp !! "n_components") as [?v|] eqn:?; [|twice_leaf];
  match goal with
  | H : wp !! "n_components" = Some ?v |- _ =>
      destruct (to_c_int v) as [?k|?e] eqn:?; [|twice_leaf]
  end;
  destruct (in_int_range nrows) as [?z|?e] eqn:?; [|twice_leaf];
  destruct (wp !! "n_cols") as [?v|] eqn:?; [|twice_leaf];
  match goal with
  | H : wp !! "n_cols" = Some ?v |- _ =>
      destruct (to_c_int v) as [?k|?e] eqn:?; [|twice_leaf]
  end;
  match goal with
  | H1 : to_c_int _ = Ok ?k, H2 : in_int_range _ = Ok ?z |- _ =>
      destruct (decide (c_int_mul z k < 0)); twice_leaf
  end.

Section Twice.
Context {T : Type} `{!Elt T}.
Implicit Types (w : world T) (X : pyobj T).

(** C6.  On a fitted model, two calls of [transform] on the same input,
    one after the other, give the same result (the same frame, or the same
    exception), and neither changes the model: the attributes of the
    estimator and of its params object are the same after each call, and
    so is every device buffer that existed before it (the components, the
    singular values and the variances among them). *)
Theorem transform_twice (lib : NativeLib T) w X :
  fitted w →
  ∃ res w1 w2,
    transform lib X w = (res, w1)
    ∧ transform lib X w1 = (res, w2)
    ∧ model_unchanged w w1
    ∧ model_unchanged w1 w2.
Proof.
  intros (p & Hp & Hlt & Hmax).
  destruct w as [wa wp wd wc]. cbn in Hp, Hlt.
  destruct X as [v|d|dt cols|dt shape fdata|q|q|s]; try twice_leaf.
  - destruct cols as [|[name data] cols]; [twice_leaf|].
    destruct (decide (length data < 1)%nat); [twice_leaf|].
    twice_tail wp (Z.of_nat (length data)).
  - destruct shape as [|r [|c shape]]; [twice_leaf..|].
    twice_tail wp (Z.of_nat r).
Qed.
End Twice.


(** ** The methods on the matrices of the examples *)

Lemma fitted_3x3_fitted : fitted fitted_3x3.
Proof.
  exists 2%nat. split; [vm_compute; reflexivity|].
  split; [vm_compute; lia|unfold UINTPTR_MAX; lia].
Qed.

Lemma transform_any_column_count_witness :
  fitted fitted_3x3
  ∧ input_shape X_3x4 = Some (3%nat, 4%nat)
  ∧ self_params fitted_3x3 !! "n_cols" = Some (PInt 3)
  ∧ ∃ cols w',
      transform idle_lib X_3x4 fitted_3x3 = (Ok (DataFrame Float32 cols), w')
      ∧ length cols = 2%nat.
Proof.
  split; [exact fitted_3x3_fitted|].
  split; [reflexivity|]. split; [vm_compute; reflexivity|].
  destruct (transform_any_column_count idle_lib fitted_3x3 X_3x4 2 3 3 4)
    as (cols & w' & Hrun & Hlen & _).
  - exact fitted_3x3_fitted.
  - reflexivity.
  - lia.
  - lia.
  - vm_compute; reflexivity.
  - vm_compute; reflexivity.
  - unfold INT_MAX. lia.
  - unfold INT_MIN, INT_MAX. lia.
  - unfold INT_MAX. lia.
  - unfold INT_MAX. lia.
  - exists cols, w'. split; [exact Hrun|exact Hlen].
Defined.

(** C2, counterexample.  The model is fitted on the 3x3 matrix (three
    columns recorded); [transform] of the 3x4 matrix then raises nothing:
    it returns a frame of two columns, after a call of [tsvdTransform]
    with [n_cols = 3]. *)
Lemma transform_3x4_after_fit_3x3_returns :
  let out := transform idle_lib X_3x4 fitted_3x3 in
  fit idle_lib X_3x3 true (new_estimator 2) = (Ok tt, fitted_3x3)
  ∧ self_params fitted_3x3 !! "n_cols" = Some (PInt 3)
  ∧ input_shape X_3x4 = Some (3%nat, 4%nat)
  ∧ out.1 = Ok (DataFrame Float32 [("0", [0; 0; 0]); ("1", [0; 0; 0])])
  ∧ (n_cols ∘ nc_params) <$> last (calls out.2) = Some 3.
Proof. cbv zeta. by_computation. Qed.

Lemma unfitted_transform_raises_witness :
  __init__ (PInt 2) (PFloat (1 # 10000000)) (PInt 15) PNone (PStr "full")
    (blank : world Z) = (Ok tt, new_estimator 2)
  ∧ ∃ e w', transform idle_lib X_3x3 (new_estimator 2) = (Raise e, w')
            ∧ calls w' = [].
Proof.
  assert (Hinit : __init__ (PInt 2) (PFloat (1 # 10000000)) (PInt 15) PNone
                    (PStr "full") (blank : world Z) = (Ok tt, new_estimator 2))
    by (vm_compute; reflexivity).
  split; [exact Hinit|].
  destruct (unfitted_transform_raises idle_lib _ _ _ _ _ _ X_3x3 Hinit)
    as ((e & w' & Hrun & _ & Hcalls & _) & _).
  exists e, w'. split; [exact Hrun|exact Hcalls].
Defined.

(** C3, counterexample.  [transform] on a new estimator raises the
    [TypeError] that the conversion of [None] to a C [int] raises anywhere,
    which signals no error kind of the design document. *)
Lemma unfitted_transform_incidental_error :
  let out := transform idle_lib X_3x3 (new_estimator 2) in
  out.1 = Raise (TypeError "an integer is required")
  ∧ self_params (new_estimator 2 : world Z) !! "n_cols" = Some PNone
  ∧ to_c_int PNone = Raise (TypeError "an integer is required")
  ∧ spec_kind (TypeError "an integer is required") = None
  ∧ (inverse_transform idle_lib X_3x3 (new_estimator 2)).1
    = Raise (TypeError "an integer is required").
Proof. cbv zeta. by_computation. Qed.

Lemma transform_twice_witness :
  fitted fitted_3x3
  ∧ ∃ res w1 w2,
      transform idle_lib X_3x3 fitted_3x3 = (res, w1)
      ∧ transform idle_lib X_3x3 w1 = (res, w2)
      ∧ model_unchanged fitted_3x3 w1.
Proof.
  split; [exact fitted_3x3_fitted|].
  destruct (transform_twice idle_lib fitted_3x3 X_3x3 fitted_3x3_fitted)
    as (res & w1 & w2 & Hrun1 & Hrun2 & Hsame & _).
  exists res, w1, w2. split; [exact Hrun1|]. split; [exact Hrun2|exact Hsame].
Defined.

(** ** Frames cut out of buffers *)

Section Frames.
Context {T : Type}.
Implicit Types (buf : list T).

(** The columns [0 .. m-1] of the loop, one after the other, are the first
    [m * k] elements of the buffer. *)
Lemma concat_slices buf (k : Z) (m : nat) :
  0 ≤ k → (m * Z.to_nat k ≤ length buf)%nat →
  concat ((λ i : Z, py_slice buf (i * k) ((i + 1) * k)) <$> seqZ 0 (Z.of_nat m))
  = take (m * Z.to_nat k) buf.
Proof.
  intros Hk. induction m as [|m IH]; intros Hlen; [done|].
  rewrite Nat.mul_succ_l in Hlen |- *.
  rewrite <- take_take_drop.
  rewrite Nat2Z.inj_succ, <- Z.add_1_r, seqZ_app by lia.
  rewrite fmap_app, concat_app, IH by lia.
  replace (seqZ (0 + Z.of_nat m) 1) with [Z.of_nat m] by (by vm_compute).
  cbn. rewrite app_nil_r. unfold py_slice.
  replace (Z.to_nat ((Z.of_nat m + 1) * k - Z.of_nat m * k))
    with (Z.to_nat k) by (f_equal; ring).
  rewrite Z2Nat.inj_mul, Nat2Z.id by lia.
  reflexivity.
Qed.

(** A buffer of [n * k] elements cut into [n] columns of [k]: the columns
    are named by their index, each has [k] elements, and laid end to end
    (as [as_gpu_matrix] lays a frame out) they are the buffer again. *)
Lemma frame_of_slices_shape buf (n k : Z) :
  0 ≤ n → 0 ≤ k → length buf = Z.to_nat (n * k) →
  (frame_of_slices buf n k).*1 = pretty <$> seqZ 0 n
  ∧ Forall (λ col, length col = Z.to_nat k) (frame_of_slices buf n k).*2
  ∧ concat (frame_of_slices buf n k).*2 = buf.
Proof.
  intros Hn Hk Hlen. unfold frame_of_slices.
  rewrite <- !list_fmap_compose. split; [done|]. split.
  - apply Forall_fmap, Forall_forall. intros i Hi.
    apply elem_of_seqZ in Hi. cbn. unfold py_slice.
    rewrite length_take, length_drop, Hlen. nia.
  - change (snd ∘ _) with (λ i : Z, py_slice buf (i * k) ((i + 1) * k)).
    rewrite <- (Z2Nat.id n) by lia.
    rewrite concat_slices; [|lia|rewrite Hlen; nia].
    apply take_ge. rewrite Hlen. nia.
Qed.
End Frames.

(** ** fit on a valid input *)

(** The conjuncts of a goal, each by [tac]. *)
Ltac split_all tac := repeat match goal with |- _ ∧ _ => split end; tac.

Section FitValid.
Context {T : Type} `{!Elt T}.
Implicit Types (w : world T) (X : pyobj T).


(** X3.  After such a [fit], [components_ptr] is the address of the
    components buffer, of [n_components * n_cols] elements: what the native
    routine wrote over the zeros of [_initialize_arrays].  [components_] is
    that buffer cut into [n_cols] columns, named by their index, of
    [n_components] entries each. *)
Theorem fit_valid_components (lib : NativeLib T) w X (_transform : bool)
    k r c i s :
  input_shape X = Some (r, c) → (1 ≤ r)%nat → (1 ≤ c)%nat →
  holds_params w k i s → 1 ≤ k ≤ Z.of_nat c →
  Z.of_nat r ≤ INT_MAX → Z.of_nat c ≤ INT_MAX →
  ∃ w' call (p : nat) buf cols,
    fit lib X _transform w = (Ok tt, w')
    ∧ calls w' = calls w ++ [call]
    ∧ self_attrs w' !! "components_ptr" = Some (Scalar (PInt (Z.of_nat p)))
    ∧ device w' !! p = Some buf
    ∧ buf = write_buf (replicate (Z.to_nat (k * Z.of_nat c)) elt_zero)
              (fit_components lib _transform call (input_buffer X))
    ∧ length buf = Z.to_nat (k * Z.of_nat c)
    ∧ self_attrs w' !! "components_" = Some (DataFrame (input_dtype X) cols)
    ∧ frame_of cols buf (Z.of_nat c) k.
Proof.
  intros HX _ _ (Hk & vi & vt & vs & t & Hvi & Hi & Hvt & Ht & Hvs & Hs)
    Hkc Hr Hc.
  assert (0 ≤ Z.of_nat r * k) by (apply Z.mul_nonneg_nonneg; lia).
  assert (0 ≤ k * Z.of_nat c) by (apply Z.mul_nonneg_nonneg; lia).
  assert (Hlen : ∀ new : list T,
            length (write_buf (replicate (Z.to_nat (k * Z.of_nat c)) elt_zero)
                      new) = Z.to_nat (k * Z.of_nat c)).
  { intros new. unfold write_buf.
    rewrite length_take, length_app, length_drop, !length_replicate. lia. }
  assert (Hframe : ∀ new : list T,
            let buf := write_buf (replicate (Z.to_nat (k * Z.of_nat c))
                                    elt_zero) new in
            frame_of (frame_of_slices buf (Z.of_nat c) k) buf (Z.of_nat c) k).
  { intros new buf. apply frame_of_slices_shape; [lia|lia|].
    unfold buf. rewrite Hlen. f_equal. lia. }
  destruct w as [wa wp wd wc]. cbn in Hk, Hvi, Hvt, Hvs.
  apply input_shape_inv in HX
    as [(dt & name & data & cols & -> & -> & -> & Hrows)
       |(dt & shape & fdata & ->)];
    destruct _transform;
    (eexists _, _, (length wd + 2)%nat, _, _;
     split; [unfold fit; mrun arith; reflexivity|];
     cbn [calls self_attrs device];
     split; [reflexivity|];
     split; [solve_lookup|];
     split; [rewrite lookup_app_r by lia;
             replace (length wd + 2 - length wd)%nat with 2%nat by lia;
             reflexivity|];
     split; [reflexivity|];
     split; [apply Hlen|];
     split; [solve_lookup|apply Hframe]).
Qed.
End FitValid.

(** ** The frames returned on valid inputs *)

Section FramesReturned.
Context {T : Type} `{!Elt T}.
Implicit Types (w : world T) (X : pyobj T).

Lemma length_write_buf (old new : list T) :
  length (write_buf old new) = length old.
Proof.
  unfold write_buf. rewrite length_take, length_app, length_drop. lia.
Qed.

Lemma frame_of_written (n k : Z) (new : list T) :
  0 ≤ n → 0 ≤ k →
  let buf := write_buf (replicate (Z.to_nat (k * n)) elt_zero) new in
  frame_of (frame_of_slices buf n k) buf n k.
Proof.
  intros Hn Hk buf. apply frame_of_slices_shape; [done|done|].
  unfold buf. rewrite length_write_buf, length_replicate. f_equal. lia.
Qed.


(** The run of [transform] on a model whose [components_ptr] is the
    address of the buffer [components]. *)
Lemma transform_run (lib : NativeLib T) w X (p : nat) components k c0 r c :
  self_attrs w !! "components_ptr" = Some (Scalar (PInt (Z.of_nat p))) →
  device w !! p = Some components → Z.of_nat p ≤ UINTPTR_MAX →
  input_shape X = Some (r, c) →
  self_params w !! "n_components" = Some (PInt k) →
  self_params w !! "n_cols" = Some (PInt c0) →
  0 ≤ k ≤ INT_MAX → INT_MIN ≤ c0 ≤ INT_MAX →
  Z.of_nat r ≤ INT_MAX → Z.of_nat r * k ≤ INT_MAX →
  let call :=
    {| nc_name := "tsvdTransform"; nc_prec := prec_of (input_dtype X);
       nc_params :=
         {| n_components := k; n_rows := Z.of_nat r; n_cols := c0;
            n_iterations := n_iterations (params_default lib);
            tol := tol (params_default lib);
            algorithm := algorithm (params_default lib) |} |} in
  let out :=
    write_buf (replicate (Z.to_nat (Z.of_nat r * k)) elt_zero)
      (tsvdTransform lib (nc_prec call) (input_buffer X) components
         (nc_params call)) in
  transform lib X w
  = (Ok (DataFrame (input_dtype X) (frame_of_slices out k (Z.of_nat r))),
     {| self_attrs := self_attrs w; self_params := self_params w;
        device := device w ++ [input_buffer X; out];
        calls := calls w ++ [call] |}).
Proof.
  intros Hp Hcomps Hmax HX Hk Hc0 Hkr Hc0r Hr Hrk call out.
  assert (Hmul : c_int_mul (Z.of_nat r) k = Z.of_nat r * k).
  { apply wrap_int_id. unfold INT_MIN. nia. }
  assert (0 ≤ c_int_mul (Z.of_nat r) k) by (rewrite Hmul; nia).
  destruct w as [wa wp wd wc]. cbn in Hp, Hcomps, Hk, Hc0.
  pose proof (lookup_lt_Some _ _ _ Hcomps) as Hlt.
  unfold out, call. cbn [nc_prec nc_params].
  apply input_shape_inv in HX
    as [(dt & name & data & cols & -> & -> & -> & Hrows)
       |(dt & shape & fdata & ->)];
    (etrans; [unfold transform; mrun arith; reflexivity|];
     cbn [input_dtype input_buffer lookup list_lookup default self_attrs
          self_params device calls];
     rewrite Hcomps, Hmul; reflexivity).
Qed.


(** X4.  On a fitted model, for a non-empty input with sizes that fit a C
    [int], [transform] returns [n_components] columns, named by their
    index, of one entry per input row: the buffer of
    [n_rows * n_components] zeros as [tsvdTransform] left it, given the
    input and the components buffer of the model. *)
Theorem transform_valid_frame (lib : NativeLib T) w X k c0 r c :
  fitted w → input_shape X = Some (r, c) → (1 ≤ r)%nat → (1 ≤ c)%nat →
  self_params w !! "n_components" = Some (PInt k) →
  self_params w !! "n_cols" = Some (PInt c0) →
  1 ≤ k ≤ INT_MAX → INT_MIN ≤ c0 ≤ INT_MAX →
  Z.of_nat r ≤ INT_MAX → Z.of_nat r * k ≤ INT_MAX →
  let prms :=
    {| n_components := k; n_rows := Z.of_nat r; n_cols := c0;
       n_iterations := n_iterations (params_default lib);
       tol := tol (params_default lib);
       algorithm := algorithm (params_default lib) |} in
  ∃ (p : nat) components cols w',
    self_attrs w !! "components_ptr" = Some (Scalar (PInt (Z.of_nat p)))
    ∧ device w !! p = Some components
    ∧ transform lib X w = (Ok (DataFrame (input_dtype X) cols), w')
    ∧ frame_of cols
        (write_buf (replicate (Z.to_nat (Z.of_nat r * k)) elt_zero)
           (tsvdTransform lib (prec_of (input_dtype X)) (input_buffer X)
              components prms))
        k (Z.of_nat r).
Proof.
  intros (p & Hp & Hlt & Hmax) HX _ _ Hk Hc0 Hkr Hc0r Hr Hrk prms.
  destruct (lookup_lt_is_Some_2 _ p Hlt) as [components Hcomps].
  exists p, components. eexists _, _.
  split; [exact Hp|]. split; [exact Hcomps|].
  split; [apply (transform_run lib w X p components k c0 r c); try done; lia|].
  apply frame_of_written; lia.
Qed.


End FramesReturned.

(** ** fit_transform *)

Section FitTransform.
Context {T : Type} `{!Elt T}.
Implicit Types (w : world T) (X : pyobj T).

End FitTransform.

(** ** The buffers of a fit *)

Section FitBuffers.
Context {T : Type} `{!Elt T}.
Implicit Types (w : world T) (X : pyobj T).

(** X7.  A [fit] on a valid input leaves the device buffers that existed
    alone and adds eight: the copy of the input, the transformed input of
    [n_rows * n_components] elements, the components of
    [n_components * n_cols], two variance vectors of [n_components], the
    mean of [n_cols], the singular values of [n_components] and one noise
    variance.  A native routine writes into these buffers; it cannot
    change their sizes. *)
Theorem fit_valid_allocations (lib : NativeLib T) w X (_transform : bool)
    k r c i s :
  input_shape X = Some (r, c) → (1 ≤ r)%nat → (1 ≤ c)%nat →
  holds_params w k i s → 1 ≤ k ≤ Z.of_nat c →
  Z.of_nat r ≤ INT_MAX → Z.of_nat c ≤ INT_MAX →
  ∃ w' new,
    fit lib X _transform w = (Ok tt, w')
    ∧ device w' = device w ++ new
    ∧ new !! 0%nat = Some (input_buffer X)
    ∧ length <$> new
      = [length (input_buffer X); Z.to_nat (Z.of_nat r * k);
         Z.to_nat (k * Z.of_nat c); Z.to_nat k; Z.to_nat k; c; Z.to_nat k;
         1%nat].
Proof.
  intros HX _ _ (Hk & vi & vt & vs & t & Hvi & Hi & Hvt & Ht & Hvs & Hs)
    Hkc Hr Hc.
  assert (0 ≤ Z.of_nat r * k) by (apply Z.mul_nonneg_nonneg; lia).
  assert (0 ≤ k * Z.of_nat c) by (apply Z.mul_nonneg_nonneg; lia).
  destruct w as [wa wp wd wc]. cbn in Hk, Hvi, Hvt, Hvs.
  apply input_shape_inv in HX
    as [(dt & name & data & cols & -> & -> & -> & Hrows)
       |(dt & shape & fdata & ->)];
    destruct _transform;
    (eexists _, _; split; [unfold fit; mrun arith; reflexivity|];
     cbn [device]; split; [reflexivity|]; split; [reflexivity|];
     cbn [fmap list_fmap input_buffer];
     rewrite ?length_write_buf, ?length_replicate, ?Nat2Z.id;
     reflexivity).
Qed.

(** X8.  [fit] without [_transform] passes the native routine the
    components and the singular values only: after it, on a valid input,
    [explained_variance_] and [explained_variance_ratio_] are series of
    [n_components] zeros, whatever the data, and [singular_values_] is the
    series of zeros as [tsvdFit] left it (the wrapper neither sorts nor
    checks what the routine wrote); the three pointer attributes are the
    addresses of these series. *)
Theorem fit_only_leaves_variance_zero (lib : NativeLib T) w X k r c i s :
  input_shape X = Some (r, c) → (1 ≤ r)%nat → (1 ≤ c)%nat →
  holds_params w k i s → 1 ≤ k ≤ Z.of_nat c →
  Z.of_nat r ≤ INT_MAX → Z.of_nat c ≤ INT_MAX →
  let zeros := replicate (Z.to_nat k) (elt_zero : T) in
  ∃ w' call (pv pr ps : nat),
    fit lib X false w = (Ok tt, w')
    ∧ calls w' = calls w ++ [call]
    ∧ self_attrs w' !! "explained_variance_" = Some (Series pv)
    ∧ self_attrs w' !! "explained_variance_ptr"
      = Some (Scalar (PInt (Z.of_nat pv)))
    ∧ device w' !! pv = Some zeros
    ∧ self_attrs w' !! "explained_variance_ratio_" = Some (Series pr)
    ∧ self_attrs w' !! "explained_variance_ratio_ptr"
      = Some (Scalar (PInt (Z.of_nat pr)))
    ∧ device w' !! pr = Some zeros
    ∧ self_attrs w' !! "singular_values_" = Some (Series ps)
    ∧ self_attrs w' !! "singular_values_ptr"
      = Some (Scalar (PInt (Z.of_nat ps)))
    ∧ device w' !! ps
      = Some (write_buf zeros
                (tsvdFit lib (nc_prec call) (input_buffer X)
                   (nc_params call)).2).
Proof.
  intros HX _ _ (Hk & vi & vt & vs & t & Hvi & Hi & Hvt & Ht & Hvs & Hs)
    Hkc Hr Hc.
  assert (0 ≤ Z.of_nat r * k) by (apply Z.mul_nonneg_nonneg; lia).
  assert (0 ≤ k * Z.of_nat c) by (apply Z.mul_nonneg_nonneg; lia).
  intros zeros.
  destruct w as [wa wp wd wc]. cbn in Hk, Hvi, Hvt, Hvs.
  assert (Hnth : ∀ (n : nat) (new : list (list T)),
            (wd ++ new) !! (length wd + n)%nat = new !! n).
  { intros n new. rewrite lookup_app_r by lia. f_equal. lia. }
  apply input_shape_inv in HX
    as [(dt & name & data & cols & -> & -> & -> & Hrows)
       |(dt & shape & fdata & ->)];
    (eexists _, _, (length wd + 3)%nat, (length wd + 4)%nat,
       (length wd + 6)%nat;
     split; [unfold fit; mrun arith; reflexivity|];
     cbn [calls self_attrs device];
     split; [reflexivity|];
     split_all ltac:(first [solve_lookup | rewrite Hnth; reflexivity])).
Qed.
End FitBuffers.

(** ** Inputs without rows and columns, parameters that are no C int *)

Section Edges.
Context {T : Type} `{!Elt T}.
Implicit Types (w : world T) (X : pyobj T).

(** X9.  A frame without columns makes [fit], [transform] and
    [inverse_transform] raise the [IndexError] of [X.columns[0]], their
    first statement on a frame; the world is as it was. *)
Theorem frame_without_columns_raises (lib : NativeLib T) w dt
    (_transform : bool) :
  ∃ msg,
    fit lib (DataFrame dt []) _transform w = (Raise (IndexError msg), w)
    ∧ transform lib (DataFrame dt []) w = (Raise (IndexError msg), w)
    ∧ inverse_transform lib (DataFrame dt []) w = (Raise (IndexError msg), w)
    ∧ spec_kind (IndexError msg) = None.
Proof. eexists. split_all ltac:(reflexivity). Qed.

(** X10.  A one-dimensional array makes [fit] and [transform] raise the
    [IndexError] of [X.shape[1]], after the array was copied to the device
    and before any native call.  [fit] has by then replaced the recorded
    element type and row count; [n_cols], the pointers and the device
    buffers that existed are as before.  [transform] changes nothing but
    the device memory. *)
Theorem one_dimensional_array_raises (lib : NativeLib T) w dt (n : nat)
    fdata (_transform : bool) :
  (1 ≤ n)%nat →
  let X := NdArray dt [n] fdata in
  ∃ msg,
    fit lib X _transform w
    = (Raise (IndexError msg),
       {| self_attrs := <["gdf_datatype" := Dtype dt]> (self_attrs w);
          self_params := <["n_rows" := PInt (Z.of_nat n)]> (self_params w);
          device := device w ++ [fdata];
          calls := calls w |})
    ∧ transform lib X w
      = (Raise (IndexError msg), with_device (λ d, d ++ [fdata]) w)
    ∧ spec_kind (IndexError msg) = None.
Proof. intros _ X. destruct w. eexists. split_all ltac:(reflexivity). Qed.

(** X11.  When [n_components] does not convert to a C [int] ([None], a
    string, an integer or float out of range), [fit] on a non-empty input
    raises the error of that conversion: the input is on the device by
    then, the shape and the element type are recorded, and nothing else
    has happened (no internal array, no native call, no other attribute
    changed). *)
Theorem fit_n_components_not_int (lib : NativeLib T) w X (_transform : bool)
    r c v e :
  input_shape X = Some (r, c) → (1 ≤ r)%nat → (1 ≤ c)%nat →
  self_params w !! "n_components" = Some v → to_c_int v = Raise e →
  fit lib X _transform w
  = (Raise e,
     {| self_attrs := <["gdf_datatype" := Dtype (input_dtype X)]>
                        (self_attrs w);
        self_params := <["n_cols" := PInt (Z.of_nat c)]>
                         (<["n_rows" := PInt (Z.of_nat r)]> (self_params w));
        device := device w ++ [input_buffer X];
        calls := calls w |}).
Proof.
  intros HX _ _ Hv He. destruct w as [wa wp wd wc]. cbn in Hv.
  apply input_shape_inv in HX
    as [(dt & name & data & cols & -> & -> & -> & Hrows)
       |(dt & shape & fdata & ->)];
    (unfold fit; mrun arith; reflexivity).
Qed.
End Edges.

(** ** Every path through fit *)

Lemma in_int_range_inv z z' : in_int_range z = Ok z' → z' = z.
Proof. unfold in_int_range. repeat case_bool_decide; congruence. Qed.

(** A conversion to a C [int] that succeeded gave the integer itself. *)
Ltac subst_int_range :=
  repeat match goal with
  | H : in_int_range ?z = Ok ?z' |- _ =>
      tryif constr_eq z z' then fail
      else (pose proof (in_int_range_inv _ _ H); subst z')
  end.

(** The cases of [fit] after the conversion of the input, each closed by
    [leaf]: the conversions of the parameters, the sizes of the internal
    arrays and the check of [n_components]. *)
Ltac fit_params_cases leaf wp :=
  destruct (wp !! "iterated_power") as [?v|] eqn:?; [|leaf];
  match goal with
  | H' : wp !! "iterated_power" = Some ?v |- _ =>
      destruct (to_c_int v) eqn:?; [|leaf]
  end;
  destruct (wp !! "tol") as [?v|] eqn:?; [|leaf];
  match goal with
  | H' : wp !! "tol" = Some ?v |- _ =>
      destruct (to_c_float v) eqn:?; [|leaf]
  end;
  destruct (wp !! "svd_solver") as [?v|] eqn:?; [|leaf];
  match goal with
  | H' : wp !! "svd_solver" = Some ?v |- _ =>
      destruct (to_c_int v) eqn:?; [|leaf]
  end.

Ltac fit_cases leaf wp r c :=
  destruct (wp !! "n_components") as [[|k|q|s]|] eqn:?; try leaf;
  [ destruct (in_int_range k) eqn:?; [|leaf];
    destruct (in_int_range r) eqn:?; [|leaf];
    destruct (in_int_range c) eqn:?; [|leaf];
    fit_params_cases leaf wp;
    destruct (decide (r * k < 0)); [leaf|];
    destruct (decide (k * c < 0)); [leaf|];
    destruct (decide (k < 0)); [leaf|];
    destruct (decide (c < k)); leaf
  | destruct (in_int_range (trunc q)) eqn:?; [|leaf];
    destruct (in_int_range r) eqn:?; [|leaf];
    destruct (in_int_range c) eqn:?; [|leaf];
    fit_params_cases leaf wp; leaf ].

Ltac unchanged_pointers :=
  unfold pointer_attrs; repeat apply Forall_cons_2; [solve_lookup..|];
  apply Forall_nil_2.

Ltac fit_outcome_leaf :=
  subst_int_range;
  eexists _, _, _;
  split; [unfold fit; mrun arith; reflexivity|];
  cbn [calls self_attrs self_params device];
  split; [first [reflexivity | symmetry; apply app_nil_r]|];
  cbv beta iota;
  first
    [ split; [reflexivity|unchanged_pointers]
    | eexists _, _;
      split; [reflexivity|];
      split; [reflexivity|];
      split; [reflexivity|];
      split; [reflexivity|];
      split; [reflexivity|];
      split; [reflexivity|];
      split; [reflexivity|];
      split; [solve_lookup|solve_lookup] ].

Section FitOutcome.
Context {T : Type} `{!Elt T}.
Implicit Types (w : world T) (X : pyobj T).

(** Whatever the input and the state of the estimator: [fit] only adds
    buffers to the device memory.  When it raises, no native routine was
    called and the pointer attributes are as before.  When it returns, one
    native routine was called, in the precision of the input; eight
    buffers were added, the first the copy of the input, the third the
    zeros of [_initialize_arrays] with what the routine wrote through the
    components pointer over them; [components_ptr] is the address of that
    third buffer and [components_] the frame cut out of it. *)
Lemma fit_outcome (lib : NativeLib T) w X (_transform : bool) :
  ∃ r w' new,
    fit lib X _transform w = (r, w')
    ∧ device w' = device w ++ new
    ∧ match r with
      | Raise _ =>
          calls w' = calls w
          ∧ Forall (λ key, self_attrs w' !! key = self_attrs w !! key)
              pointer_attrs
      | Ok _ =>
          ∃ call buf,
            calls w' = calls w ++ [call]
            ∧ nc_name call
              = (if _transform then "tsvdFitTransform" else "tsvdFit")
            ∧ nc_prec call = prec_of (input_dtype X)
            ∧ length new = 8%nat
            ∧ new !! 0%nat = Some (input_buffer X)
            ∧ new !! 2%nat = Some buf
            ∧ buf = write_buf
                      (replicate
                         (Z.to_nat (n_components (nc_params call)
                                    * n_cols (nc_params call))) elt_zero)
                      (fit_components lib _transform call (input_buffer X))
            ∧ self_attrs w' !! "components_ptr"
              = Some (Scalar (PInt (Z.of_nat (length (device w) + 2))))
            ∧ self_attrs w' !! "components_"
              = Some (DataFrame (input_dtype X)
                        (frame_of_slices buf (n_cols (nc_params call))
                           (n_components (nc_params call))))
      end.
Proof.
  destruct w as [wa wp wd wc].
  destruct X as [v|d|dt cols|dt shape fdata|q|q|s]; try fit_outcome_leaf.
  - destruct cols as [|[name data] cols]; [fit_outcome_leaf|].
    destruct (decide (length data < 1)%nat); [fit_outcome_leaf|].
    destruct _transform;
      fit_cases fit_outcome_leaf wp
        (Z.of_nat (length data)) (Z.of_nat (S (length cols))).
  - destruct shape as [|r [|c shape]]; [fit_outcome_leaf..|].
    destruct _transform;
      fit_cases fit_outcome_leaf wp (Z.of_nat r) (Z.of_nat c).
Qed.
End FitOutcome.

(** ** Every path through transform and inverse_transform *)






Section TransformOutcome.
Context {T : Type} `{!Elt T}.
Implicit Types (w : world T) (X : pyobj T).


End TransformOutcome.

(** ** fit_transform after fit *)

Section FitTransformWorld.
Context {T : Type} `{!Elt T}.
Implicit Types (w : world T) (X : pyobj T).

(** [fit_transform] is [fit] with [_transform=True], then reads only: it
    leaves the world [fit] leaves, and raises what [fit] raises. *)
Lemma fit_transform_after_fit (lib : NativeLib T) w X :
  (fit_transform lib X w).2 = (fit lib X true w).2
  ∧ ∀ e, (fit lib X true w).1 = Raise e
         → (fit_transform lib X w).1 = Raise e.
Proof.
  unfold fit_transform, mbind, M_bind.
  destruct (fit lib X true w) as [[[]|e] w1]; [|split; [done|by intros ? [= ->]]].
  split; [|intros ? [=]].
  unfold getattr_params, getattr_self, lift, _get_ctype_ptr, device_read,
    dtype_of, mret, M_ret, raise.
  repeat case_match; simplify_eq/=; reflexivity.
Qed.
End FitTransformWorld.

(** ** What the methods never change *)

Section Frame.
Context {T : Type} `{!Elt T}.
Implicit Types (w : world T) (X : pyobj T).

Lemma set_params_loop_frame keys (items : list (string * pyval)) w :
  let w' := (set_params_loop keys items w).2 in
  device w' = device w ∧ calls w' = calls w
  ∧ (∀ k, k ≠ "algorithm" → self_attrs w' !! k = self_attrs w !! k)
  ∧ (∀ k, k ∉ set_variables → self_params w' !! k = self_params w !! k).
Proof.
  revert w. induction items as [|[key value] items IH]; intros w; [done|].
  cbn [set_params_loop]. unfold mbind, M_bind.
  case_bool_decide as Hkey; cbn [negb]; [|done].
  destruct (bool_decide ("algorithm" ∈ keys) && bool_decide (key = "algorithm"))
    eqn:Halg.
  - apply andb_true_iff in Halg as [_ ->%bool_decide_eq_true].
    unfold setattr_self, lift, setattr_params.
    destruct (_get_algorithm_c_name value) as [c|e]; cbn.
    + match goal with
      | |- context [set_params_loop keys items ?w1] =>
          destruct (IH w1) as (Hd & Hc & Ha & Hp)
      end.
      destruct (set_params_loop keys items _) as [[[]|e] w2];
        cbn in Hd, Hc, Ha, Hp |- *;
        (split; [done|]; split; [done|]; split;
         [intros k Hk; rewrite Ha by done; by apply lookup_insert_ne
         |intros k Hk; rewrite Hp by done; apply lookup_insert_ne;
          intros <-; apply Hk; compute_done]).
    + split; [done|]. split; [done|]. split; [|done].
      intros k Hk. by apply lookup_insert_ne.
  - unfold setattr_params.
    match goal with
    | |- context [set_params_loop keys items ?w1] =>
        destruct (IH w1) as (Hd & Hc & Ha & Hp)
    end.
    destruct (set_params_loop keys items _) as [[[]|e] w2];
      cbn in Hd, Hc, Ha, Hp |- *;
      (split; [done|]; split; [done|]; split;
       [intros k Hk; by rewrite Ha
       |intros k Hk; rewrite Hp by done; apply lookup_insert_ne;
        by intros <-]).
Qed.

(** X12.  [set_params], whether it returns or raises, and whatever the
    updates: it makes no native call and leaves the device memory alone;
    of the attributes of the estimator it changes at most [algorithm], so
    that the fitted state (the pointers, [components_]) stays; of the
    attributes of the params object it changes none outside its list, so
    that the recorded shape [n_rows], [n_cols] stays. *)
Theorem set_params_keeps_fitted_state (params : list (string * pyval)) w :
  let w' := (set_params params w).2 in
  device w' = device w ∧ calls w' = calls w
  ∧ (∀ k, k ≠ "algorithm" → self_attrs w' !! k = self_attrs w !! k)
  ∧ (∀ k, k ∉ set_variables → self_params w' !! k = self_params w !! k)
  ∧ self_params w' !! "n_rows" = self_params w !! "n_rows"
  ∧ self_params w' !! "n_cols" = self_params w !! "n_cols".
Proof.
  assert (Hframe :
    let w' := (set_params params w).2 in
    device w' = device w ∧ calls w' = calls w
    ∧ (∀ k, k ≠ "algorithm" → self_attrs w' !! k = self_attrs w !! k)
    ∧ (∀ k, k ∉ set_variables → self_params w' !! k = self_params w !! k)).
  { destruct params as [|item params]; [done|].
    unfold set_params, mbind, M_bind.
    pose proof (set_params_loop_frame ((item :: params).*1) (item :: params) w)
      as Hloop.
    destruct (set_params_loop _ (item :: params) w) as [[[]|e] w2]; exact Hloop. }
  destruct Hframe as (Hd & Hc & Ha & Hp).
  repeat split; try done; apply Hp; compute_done.
Qed.


(** X1.  Whenever [fit] returns, it has called one native routine, and
    [components_ptr] is the address of the third of the eight device
    buffers this call added: the components buffer of
    [_initialize_arrays], [n_components * n_cols] zeros overwritten from
    its start by what that routine wrote through the components pointer,
    given the copy of the input.  [components_] is that buffer cut into
    [n_cols] columns, and [n_components] of the params object is the
    integer passed to the routine. *)
Theorem fit_returns_components_buffer (lib : NativeLib T) w X
    (_transform : bool) w' :
  fit lib X _transform w = (Ok tt, w') →
  ∃ call new buf,
    calls w' = calls w ++ [call]
    ∧ nc_name call = (if _transform then "tsvdFitTransform" else "tsvdFit")
    ∧ nc_prec call = prec_of (input_dtype X)
    ∧ device w' = device w ++ new
    ∧ length new = 8%nat
    ∧ new !! 0%nat = Some (input_buffer X)
    ∧ new !! 2%nat = Some buf
    ∧ buf = write_buf
              (replicate
                 (Z.to_nat (n_components (nc_params call)
                            * n_cols (nc_params call))) elt_zero)
              (fit_components lib _transform call (input_buffer X))
    ∧ self_attrs w' !! "components_ptr"
      = Some (Scalar (PInt (Z.of_nat (length (device w) + 2))))
    ∧ device w' !! (length (device w) + 2)%nat = Some buf
    ∧ self_attrs w' !! "components_"
      = Some (DataFrame (input_dtype X)
                (frame_of_slices buf (n_cols (nc_params call))
                   (n_components (nc_params call)))).
Proof.
  intros Hrun.
  destruct (fit_outcome lib w X _transform)
    as (r & w0 & new & Hrun0 & Hd & Hout).
  rewrite Hrun in Hrun0. injection Hrun0 as <- <-.
  destruct Hout
    as (call & buf & Hc & Hname & Hprec & Hlen & Hin & Hbuf & Heq & Hptr
        & Hframe).
  exists call, new, buf.
  split_all ltac:(try done).
  rewrite Hd, lookup_app_r by lia.
  by replace (length (device w) + 2 - length (device w))%nat with 2%nat by lia.
Qed.


(** X15.  What [fit] raises, [fit_transform] raises; and it leaves the
    world of [fit] with [_transform=True] in every case, for it only reads
    after the fit. *)
Theorem fit_transform_raises_as_fit (lib : NativeLib T) w X :
  (fit_transform lib X w).2 = (fit lib X true w).2
  ∧ match (fit lib X true w).1 with
    | Raise e => (fit_transform lib X w).1 = Raise e
    | Ok _ => True
    end.
Proof.
  split; [apply fit_transform_after_fit|].
  destruct (fit lib X true w) as [[[]|e] w'] eqn:Hfit; [done|].
  apply fit_transform_after_fit. by rewrite Hfit.
Qed.
End Frame.

(** ** The constructor, set_params and get_params together *)

Section Params.
Context {T : Type} `{!Elt T}.
Implicit Types (w : world T).

(** The dictionary of [get_params], written out. *)
Lemma get_params_run w :
  let p k := Scalar (default PNone (self_params w !! k)) : pyobj T in
  get_params w
  = (Ok (<["n_rows" := p "n_rows"]> (<["n_cols" := p "n_cols"]> (
         <["random_state" := p "random_state"]> (
         <["iterated_power" := p "iterated_power"]> (
         <["random_state" := p "random_state"]> (
         <["n_iter" := p "n_iter"]> (<["tol" := p "tol"]> (
         <["svd_solver" := p "svd_solver"]> (
         <["algorithm" := default (Scalar PNone)
                            (self_attrs w !! "algorithm")]> (
         <["algorithm" := p "algorithm"]> (
         <["n_components" := p "n_components"]> ∅))))))))))), w).
Proof. reflexivity. Qed.

(** X16.  What [__init__] stores, [get_params] reports, except the
    iteration count: with a supported algorithm, the dictionary binds
    [n_components], [tol], [random_state] and [algorithm] to the
    arguments, [svd_solver] to the C name of the algorithm, [n_rows] and
    [n_cols] to [None]; the argument [n_iter] is reported under
    [iterated_power], and [n_iter] itself is [None]. *)
Theorem init_then_get_params nc tl it rs alg :
  supported_algorithm alg = true →
  ∃ w0 c m,
    __init__ nc tl it rs alg (blank : world T) = (Ok tt, w0)
    ∧ _get_algorithm_c_name alg = Ok c
    ∧ get_params w0 = (Ok m, w0)
    ∧ m !! "n_components" = Some (Scalar nc)
    ∧ m !! "tol" = Some (Scalar tl)
    ∧ m !! "random_state" = Some (Scalar rs)
    ∧ m !! "algorithm" = Some (Scalar alg)
    ∧ m !! "svd_solver" = Some (Scalar c)
    ∧ m !! "iterated_power" = Some (Scalar it)
    ∧ m !! "n_iter" = Some (Scalar PNone)
    ∧ m !! "n_rows" = Some (Scalar PNone)
    ∧ m !! "n_cols" = Some (Scalar PNone).
Proof.
  intros Halg. destruct (supported_c_name alg Halg) as [c Hc].
  eexists _, c, _.
  split; [unfold __init__, blank; mrun arith; reflexivity|].
  split; [exact Hc|]. split; [apply get_params_run|].
  cbv zeta. cbn [self_params self_attrs].
  repeat match goal with |- _ ∧ _ => split end; reflexivity.
Qed.

Lemma is_prefix_of_app (p s : string) : is_prefix_of p (p +:+ s) = true.
Proof.
  unfold is_prefix_of. apply bool_decide_eq_true_2.
  induction p as [|a p IH]; [by destruct s|].
  change (String a (String.substring 0 (String.length p) (p +:+ s))
          = String a p).
  by rewrite IH.
Qed.

(** X17.  An algorithm that is none of ['full'], ['auto'], ['jacobi']
    makes [__init__] raise a [TypeError], an invalid-parameter error; the
    estimator is left with the five attributes assigned before the check
    and without params object or pointer attributes. *)
Theorem init_unsupported_algorithm nc tl it rs alg :
  supported_algorithm alg = false →
  ∃ msg w0,
    __init__ nc tl it rs alg (blank : world T) = (Raise (TypeError msg), w0)
    ∧ spec_kind (TypeError msg) = Some InvalidParameter
    ∧ dom (self_attrs w0)
      = {["n_components"; "tol"; "n_iter"; "random_state"; "algorithm"]}
    ∧ self_params w0 = ∅.
Proof.
  intros Halg. eexists _, _.
  split; [unfold __init__, blank; mrun arith; reflexivity|].
  split; [|split; [|reflexivity]].
  - cbn [spec_kind]. case_bool_decide as Hmsg; [discriminate Hmsg|].
    by rewrite is_prefix_of_app.
  - cbn [self_attrs]. rewrite !dom_insert_L, dom_empty_L. set_solver.
Qed.

(** X18.  What [set_params] accepts, [get_params] reports: after a call
    in which every update is accepted, the dictionary binds each updated
    key it knows to the new value ([svd_solver] unless [algorithm] was
    updated too, which overwrites it).  The key [c_algorithm], which
    [set_params] accepts, is not reported at all. *)
Theorem set_params_then_get_params w (params : list (string * pyval)) :
  NoDup params.*1 → params ≠ [] → Forall accepted params →
  ∃ w' m,
    set_params params w = (Ok RefParams, w')
    ∧ get_params w' = (Ok m, w')
    ∧ (∀ k v, (k, v) ∈ params → k ∈ get_variables →
         (k = "svd_solver" → "algorithm" ∉ params.*1) →
         m !! k = Some (Scalar v))
    ∧ m !! "c_algorithm" = None.
Proof.
  intros Hnd Hne Hacc.
  assert (Hrun : set_params params w
                 = (Ok RefParams, foldl apply_update w params)).
  { rewrite set_params_nonempty by done. unfold mbind, M_bind.
    rewrite set_params_loop_accepted; [done|done|].
    destruct (decide ("algorithm" ∈ params.*1)); [by left|by right]. }
  eexists _, _. split; [exact Hrun|]. split; [apply get_params_run|].
  cbv zeta. split; [|done].
  intros k v Hin Hk Hs.
  destruct (decide (k = "algorithm")) as [->|Hna].
  - destruct (foldl_apply_update_algorithm params w v Hnd Hin) as [Ha _].
    repeat first [rewrite lookup_insert_eq | rewrite lookup_insert_ne by done].
    by rewrite Ha.
  - pose proof (foldl_apply_update_params params w k v Hnd Hin Hna Hs) as Hp.
    unfold get_variables in Hk. rewrite !elem_of_cons, elem_of_nil in Hk.
    destruct Hk as [->|[->|[->|[->|[->|[->|[->|[->|[->|[->|[]]]]]]]]]]];
      try done;
      repeat first [rewrite lookup_insert_eq | rewrite lookup_insert_ne by done];
      by rewrite Hp.
Qed.
End Params.

(** ** The iteration count fit uses *)

Section Iterations.
Context {T : Type} `{!Elt T}.
Implicit Types (w : world T) (X : pyobj T).

End Iterations.

(** ** transform after fit *)

Section FitThenTransform.
Context {T : Type} `{!Elt T}.
Implicit Types (w : world T) (X : pyobj T).

End FitThenTransform.

(** ** The further properties on the matrices of the examples *)

Lemma new_estimator_holds_params (k : Z) :
  holds_params (new_estimator k : world Z) k 15 COV_EIG_DQ.
Proof.
  split; [reflexivity|].
  exists (PInt 15), (PFloat (1 # 10000000)), (PInt COV_EIG_DQ),
    (1 # 10000000)%Q.
  repeat match goal with |- _ ∧ _ => split end; reflexivity.
Qed.

Lemma fitted_3x3_params :
  self_params fitted_3x3 !! "n_components" = Some (PInt 2)
  ∧ self_params fitted_3x3 !! "n_cols" = Some (PInt 3).
Proof. by_computation. Qed.

Lemma fit_returns_components_buffer_witness :
  fit idle_lib X_3x3 true (new_estimator 2) = (Ok tt, fitted_3x3)
  ∧ self_attrs fitted_3x3 !! "components_ptr" = Some (Scalar (PInt 2))
  ∧ ∃ buf, device fitted_3x3 !! 2%nat = Some buf ∧ length buf = 6%nat.
Proof.
  assert (Hrun : fit idle_lib X_3x3 true (new_estimator 2)
                 = (Ok tt, fitted_3x3)) by (vm_compute; reflexivity).
  split; [exact Hrun|].
  destruct (fit_returns_components_buffer idle_lib (new_estimator 2) X_3x3
              true fitted_3x3 Hrun)
    as (call & new & buf & _ & _ & _ & _ & _ & _ & _ & _ & Hptr & Hbuf & _).
  split; [exact Hptr|].
  exists buf. split; [exact Hbuf|].
  vm_compute in Hbuf. injection Hbuf as <-. reflexivity.
Defined.


Lemma fit_valid_components_witness :
  input_shape X_3x3 = Some (3%nat, 3%nat)
  ∧ holds_params (new_estimator 2 : world Z) 2 15 COV_EIG_DQ
  ∧ ∃ w' cols,
      fit idle_lib X_3x3 true (new_estimator 2) = (Ok tt, w')
      ∧ self_attrs w' !! "components_" = Some (DataFrame Float32 cols)
      ∧ cols.*1 = ["0"; "1"; "2"].
Proof.
  split; [reflexivity|]. split; [apply new_estimator_holds_params|].
  destruct (fit_valid_components idle_lib (new_estimator 2) X_3x3 true
              2 3 3 15 COV_EIG_DQ)
    as (w' & call & p & buf & cols & Hrun & _ & _ & _ & _ & _ & Hattr
        & Hnames & _).
  - reflexivity.
  - lia.
  - lia.
  - apply new_estimator_holds_params.
  - lia.
  - unfold INT_MAX. lia.
  - unfold INT_MAX. lia.
  - exists w', cols. split; [exact Hrun|]. split; [exact Hattr|].
    rewrite Hnames. reflexivity.
Defined.

Lemma fit_valid_allocations_witness :
  input_shape X_3x3 = Some (3%nat, 3%nat)
  ∧ holds_params (new_estimator 2 : world Z) 2 15 COV_EIG_DQ
  ∧ ∃ w' new,
      fit idle_lib X_3x3 false (new_estimator 2) = (Ok tt, w')
      ∧ device w' = new
      ∧ length <$> new = [9; 6; 6; 2; 2; 3; 2; 1]%nat.
Proof.
  split; [reflexivity|]. split; [apply new_estimator_holds_params|].
  destruct (fit_valid_allocations idle_lib (new_estimator 2) X_3x3 false
              2 3 3 15 COV_EIG_DQ)
    as (w' & new & Hrun & Hdev & _ & Hlen).
  - reflexivity.
  - lia.
  - lia.
  - apply new_estimator_holds_params.
  - lia.
  - unfold INT_MAX. lia.
  - unfold INT_MAX. lia.
  - exists w', new. split; [exact Hrun|]. split; [exact Hdev|exact Hlen].
Defined.

Lemma fit_only_leaves_variance_zero_witness :
  input_shape X_3x3 = Some (3%nat, 3%nat)
  ∧ holds_params (new_estimator 2 : world Z) 2 15 COV_EIG_DQ
  ∧ ∃ w' (pv : nat),
      fit idle_lib X_3x3 false (new_estimator 2) = (Ok tt, w')
      ∧ self_attrs w' !! "explained_variance_" = Some (Series pv)
      ∧ device w' !! pv = Some [0; 0].
Proof.
  split; [reflexivity|]. split; [apply new_estimator_holds_params|].
  destruct (fit_only_leaves_variance_zero idle_lib (new_estimator 2) X_3x3
              2 3 3 15 COV_EIG_DQ)
    as (w' & call & pv & pr & ps & Hrun & _ & Hattr & _ & Hdev & _).
  - reflexivity.
  - lia.
  - lia.
  - apply new_estimator_holds_params.
  - lia.
  - unfold INT_MAX. lia.
  - unfold INT_MAX. lia.
  - exists w', pv. split; [exact Hrun|]. split; [exact Hattr|exact Hdev].
Defined.


Lemma transform_valid_frame_witness :
  fitted fitted_3x3
  ∧ input_shape X_3x4 = Some (3%nat, 4%nat)
  ∧ ∃ cols w',
      transform idle_lib X_3x4 fitted_3x3 = (Ok (DataFrame Float32 cols), w')
      ∧ cols.*1 = ["0"; "1"]
      ∧ Forall (λ col, length col = 3%nat) cols.*2.
Proof.
  split; [exact fitted_3x3_fitted|]. split; [reflexivity|].
  destruct (transform_valid_frame idle_lib fitted_3x3 X_3x4 2 3 3 4)
    as (p & comps & cols & w' & _ & _ & Hrun & Hnames & Hlen & _).
  - exact fitted_3x3_fitted.
  - reflexivity.
  - lia.
  - lia.
  - apply fitted_3x3_params.
  - apply fitted_3x3_params.
  - unfold INT_MAX. lia.
  - unfold INT_MIN, INT_MAX. lia.
  - unfold INT_MAX. lia.
  - unfold INT_MAX. lia.
  - exists cols, w'. split; [exact Hrun|]. split; [|exact Hlen].
    rewrite Hnames. reflexivity.
Defined.



Lemma one_dimensional_array_raises_witness :
  (1 ≤ 3)%nat
  ∧ ∃ msg w', fit idle_lib (NdArray Float32 [3%nat] [1; 2; 5]) false
                (new_estimator 1)
              = (Raise (IndexError msg), w')
            ∧ self_params w' !! "n_rows" = Some (PInt 3)
            ∧ calls w' = [].
Proof.
  assert (Hn : (1 ≤ 3)%nat) by lia.
  split; [exact Hn|].
  destruct (one_dimensional_array_raises idle_lib (new_estimator 1)
              Float32 3 [1; 2; 5] false Hn) as (msg & Hrun & _).
  eexists msg, _. split; [exact Hrun|]. split; reflexivity.
Defined.

Lemma fit_n_components_not_int_witness :
  let w1 : world Z :=
    (set_params [("n_components", PStr "two")] (new_estimator 2)).2 in
  input_shape X_3x3 = Some (3%nat, 3%nat)
  ∧ self_params w1 !! "n_components" = Some (PStr "two")
  ∧ ∃ e, to_c_int (PStr "two") = Raise e
       ∧ (fit idle_lib X_3x3 true w1).1 = Raise e
       ∧ device (fit idle_lib X_3x3 true w1).2 = [input_buffer X_3x3].
Proof.
  intros w1.
  assert (Hv : self_params w1 !! "n_components" = Some (PStr "two"))
    by reflexivity.
  assert (H3 : (1 ≤ 3)%nat) by lia.
  split; [reflexivity|]. split; [exact Hv|].
  eexists. split; [reflexivity|].
  rewrite (fit_n_components_not_int idle_lib w1 X_3x3 true 3 3 (PStr "two") _
             eq_refl H3 H3 Hv eq_refl).
  split; reflexivity.
Defined.

Lemma init_then_get_params_witness :
  supported_algorithm (PStr "jacobi") = true
  ∧ ∃ (w0 : world Z) m,
      __init__ (PInt 2) (PFloat (1 # 100)) (PInt 20) PNone (PStr "jacobi")
        blank = (Ok tt, w0)
      ∧ get_params w0 = (Ok m, w0)
      ∧ m !! "iterated_power" = Some (Scalar (PInt 20))
      ∧ m !! "n_iter" = Some (Scalar PNone).
Proof.
  split; [reflexivity|].
  destruct (init_then_get_params (T := Z) (PInt 2) (PFloat (1 # 100))
              (PInt 20) PNone (PStr "jacobi") eq_refl)
    as (w0 & c & m & Hinit & _ & Hget & _ & _ & _ & _ & _ & Hpow & Hiter & _).
  exists w0, m. split; [exact Hinit|]. split; [exact Hget|].
  split; [exact Hpow|exact Hiter].
Defined.

Lemma init_unsupported_algorithm_witness :
  supported_algorithm (PStr "arpack") = false
  ∧ ∃ msg (w0 : world Z),
      __init__ (PInt 2) (PFloat (1 # 100)) (PInt 20) PNone (PStr "arpack")
        blank = (Raise (TypeError msg), w0)
      ∧ self_params w0 = ∅.
Proof.
  split; [reflexivity|].
  destruct (init_unsupported_algorithm (T := Z) (PInt 2) (PFloat (1 # 100))
              (PInt 20) PNone (PStr "arpack") eq_refl)
    as (msg & w0 & Hinit & _ & _ & Hparams).
  exists msg, w0. split; [exact Hinit|exact Hparams].
Defined.

Lemma set_params_then_get_params_witness :
  NoDup [("tol", PFloat (1 # 100)); ("algorithm", PStr "jacobi")].*1
  ∧ Forall accepted [("tol", PFloat (1 # 100)); ("algorithm", PStr "jacobi")]
  ∧ ∃ w' m,
      set_params [("tol", PFloat (1 # 100)); ("algorithm", PStr "jacobi")]
        (new_estimator 2 : world Z) = (Ok RefParams, w')
      ∧ get_params w' = (Ok m, w')
      ∧ m !! "tol" = Some (Scalar (PFloat (1 # 100)))
      ∧ m !! "algorithm" = Some (Scalar (PStr "jacobi")).
Proof.
  assert (Hnd : NoDup [("tol", PFloat (1 # 100));
                       ("algorithm", PStr "jacobi")].*1) by compute_done.
  assert (Hacc : Forall accepted [("tol", PFloat (1 # 100));
                                  ("algorithm", PStr "jacobi")]).
  { repeat (constructor; [split; cbn; [compute_done|try discriminate]|]).
    - reflexivity.
    - constructor. }
  split; [exact Hnd|]. split; [exact Hacc|].
  destruct (set_params_then_get_params (new_estimator 2 : world Z) _ Hnd)
    as (w' & m & Hset & Hget & Hkeys & _).
  - discriminate.
  - exact Hacc.
  - exists w', m. split; [exact Hset|]. split; [exact Hget|]. split.
    + apply Hkeys; [|compute_done|discriminate].
      rewrite elem_of_cons. by left.
    + apply Hkeys; [|compute_done|discriminate].
      rewrite !elem_of_cons. right. by left.
Defined.


